(** * polyid-auth: storage port, RPC handlers and MFA handlers

    A shallow embedding of the Go sources

      - package storage: NoSQLStorage over the NoSQLClient interface
        (internal/storage/nosql.go), with the entities User and
        Credential and the StorageError type;
      - package auth: the AuthService RPC handlers
        (internal/auth/grpc.go), with the messages of the Auth service;
      - package mfa: the TOTP handlers and their storage helpers.

    Go values are modelled as follows.  [string] is [string]; [int64] and
    [time.Duration] are [Z]; a [time.Time] is the number of nanoseconds
    since the Unix epoch; a [float64] is a [spec_float] of the binary64
    format; a nil-able pointer or map is an [option]; an [error] is an
    [option] whose [None] is Go's [nil]; [interface{}] is the sum [any].
    A [map[string]interface{}] is a [gmap string any].  Calls on the
    [NoSQLClient] interface thread the client's state explicitly; the
    clock reading of [time.Now()] is an argument of the operation that
    takes it. *)

From Stdlib Require Import ZArith Lia Ascii.
From Stdlib Require Import Floats.SpecFloat.
From stdpp Require Import base option strings gmap list fin_maps.

Local Open Scope string_scope.
Local Open Scope list_scope.
Local Open Scope Z_scope.

(** ** Go base types *)

Module Go.

(** [time.Time], in nanoseconds since the epoch, and [time.Duration]. *)
Definition Time := Z.
Definition Duration := Z.

Definition Second : Duration := 1000000000.
Definition Hour : Duration := 3600 * Second.

(** [t.Add(d)] *)
Definition Add (t : Time) (d : Duration) : Time := t + d.

(** [t.Unix()]: whole seconds since the epoch (rounded down). *)
Definition Unix (t : Time) : Z := t / Second.

(** [float64] *)
Definition float64 := spec_float.

Definition int64_min : Z := - 2 ^ 63.
Definition int64_max : Z := 2 ^ 63 - 1.

(** The conversion [int64(f)]: the fraction is discarded (truncation
    towards zero).  Go leaves the result implementation-dependent when
    the value is not representable; amd64 yields the least int64. *)
Definition int64_of_float64 (f : float64) : Z :=
  match f with
  | S754_zero _ => 0
  | S754_finite s m e =>
      let mag :=
        match e with
        | Z0 => Zpos m
        | Zpos p => Zpos m * 2 ^ Zpos p
        | Zneg p => Zpos m / 2 ^ Zpos p
        end in
      let v := if s then - mag else mag in
      if (int64_min <=? v) && (v <=? int64_max) then v else int64_min
  | S754_infinity _ | S754_nan => int64_min
  end.

(** The value a JSON codec decodes for an encoded int64: the nearest
    binary64 number. *)
Definition float64_of_int64 (z : Z) : float64 :=
  binary_normalize 53 1024 z 0 false.

(** [interface{}], restricted to the dynamic types the storage layer
    stores or tests for. *)
Inductive any :=
| AString (s : string)
| AFloat64 (f : float64)
| AInt64 (z : Z)
| ABool (b : bool)
| ATime (t : Time)
| ABytes (b : list Z)
| ANil.

(** Type assertions [v.(float64)] and [v.(string)] on the result of a
    map index expression; a missing key yields the nil interface, for
    which every assertion fails.  The first component is the asserted
    value (the zero value on failure), the second is [ok]. *)
Definition assert_float64 (v : option any) : float64 * bool :=
  match v with
  | Some (AFloat64 f) => (f, true)
  | _ => (S754_zero false, false)
  end.

Definition assert_string (v : option any) : string * bool :=
  match v with
  | Some (AString s) => (s, true)
  | _ => ("", false)
  end.

(** The int64 an integer computation yields: the value modulo [2 ^ 64],
    in two's complement. *)
Definition wrap_int64 (z : Z) : Z := (z + 2 ^ 63) mod 2 ^ 64 - 2 ^ 63.

(** The zero [time.Time], January 1 of year 1, 00:00:00 UTC. *)
Definition zero_Time : Time := - 62135596800 * Second.

(** [Time.MarshalJSON] encodes the instants of the years 0 to 9999 (UTC)
    and fails on every other. *)
Definition json_year_ok (t : Time) : bool :=
  (- 62167219200 * Second <=? t) && (t <? 253402300800 * Second).

(** *** UTF-8, as [encoding/json] reads a Go string

    [rune_width] is the width [utf8.DecodeRuneInString] reports for a
    valid sequence at the head of the bytes, and 0 where it reports
    [RuneError] with width 1. *)
Definition byte_of (a : ascii) : Z := Z.of_N (N_of_ascii a).

Definition in_range (lo hi : Z) (a : ascii) : bool :=
  (lo <=? byte_of a) && (byte_of a <=? hi).

(** For a leading byte, the width of its sequence and the range of the
    second byte ([first] and [acceptRanges] of package utf8). *)
Definition accept (c : Z) : option (nat * Z * Z) :=
  if (194 <=? c) && (c <=? 223) then Some (2%nat, 128, 191)
  else if c =? 224 then Some (3%nat, 160, 191)
  else if (225 <=? c) && (c <=? 236) then Some (3%nat, 128, 191)
  else if c =? 237 then Some (3%nat, 128, 159)
  else if (238 <=? c) && (c <=? 239) then Some (3%nat, 128, 191)
  else if c =? 240 then Some (4%nat, 144, 191)
  else if (241 <=? c) && (c <=? 243) then Some (4%nat, 128, 191)
  else if c =? 244 then Some (4%nat, 128, 143)
  else None.

Definition rune_width (l : list ascii) : nat :=
  match l with
  | [] => 0%nat
  | b0 :: r =>
      if byte_of b0 <? 128 then 1%nat
      else
        match accept (byte_of b0), r with
        | Some (2%nat, lo, hi), b1 :: _ =>
            if in_range lo hi b1 then 2%nat else 0%nat
        | Some (3%nat, lo, hi), b1 :: b2 :: _ =>
            if in_range lo hi b1 && in_range 128 191 b2
            then 3%nat else 0%nat
        | Some (4%nat, lo, hi), b1 :: b2 :: b3 :: _ =>
            if in_range lo hi b1 && in_range 128 191 b2
               && in_range 128 191 b3
            then 4%nat else 0%nat
        | _, _ => 0%nat
        end
  end.

(** U+FFFD in UTF-8. *)
Definition replacement : list ascii :=
  [ascii_of_nat 239; ascii_of_nat 191; ascii_of_nat 189].

Fixpoint to_valid_utf8 (fuel : nat) (l : list ascii) : list ascii :=
  match fuel, l with
  | O, _ | _, [] => []
  | S n, _ :: r =>
      match rune_width l with
      | O => replacement ++ to_valid_utf8 n r
      | w => firstn w l ++ to_valid_utf8 n (skipn w l)
      end
  end.

(** A string after [json.Marshal] and [json.Unmarshal]: every byte that
    starts no valid UTF-8 sequence has become U+FFFD. *)
Definition json_string (s : string) : string :=
  String.string_of_list_ascii
    (to_valid_utf8 (String.length s) (String.list_ascii_of_string s)).

End Go.

Import Go.

(** ** package storage: entities and errors *)

Record User := mkUser {
  User_ID : string;
  User_Email : string;
  User_CreatedAt : Time;
  User_UpdatedAt : Time;
}.

Record Credential := mkCredential {
  Credential_ID : string;
  Credential_UserID : string;
  Credential_PublicKey : list Z;
  Credential_AttestationType : string;
  Credential_CreatedAt : Time;
}.

(** Errors raised by collaborators (the client, the JSON codec) are kept
    as their message. *)
Definition error := string.

Record StorageError := mkStorageError {
  Code : string;
  Message : string;
  Err : option error;
}.

Definition ErrNotFound := "NOT_FOUND".
Definition ErrAlreadyExists := "ALREADY_EXISTS".
Definition ErrInvalidInput := "INVALID_INPUT".
Definition ErrInternal := "INTERNAL_ERROR".

(** [(e *StorageError) Error()] *)
Definition StorageError_Error (e : StorageError) : string :=
  match Err e with
  | Some inner => Message e +:+ ": " +:+ inner
  | None => Message e
  end.

(** ** nosql.go: the client interface *)

(** A [map[string]interface{}]. *)
Abbreviation item := (gmap string any).

(** What [Put] receives as its [value interface{}]. *)
Inductive document :=
| DUser (u : User)
| DCredential (c : Credential)
| DMap (m : item).

(** [NoSQLClient], over a client state [Σ].  [Get] returns the pair
    (map, error) of the Go method; the map is [None] when it is nil. *)
Record NoSQLClient (Σ : Type) := mkClient {
  Put : string -> string -> document -> Σ -> Σ * option error;
  Get : string -> string -> Σ -> Σ * (option item * option error);
  Query : string -> string -> string -> item -> Σ
          -> Σ * (list item * option error);
  Delete : string -> string -> Σ -> Σ * option error;
  CreateIndex : string -> string -> list string -> Σ -> Σ * option error;
}.

Arguments Put {Σ} _ _ _ _ _.
Arguments Get {Σ} _ _ _ _.
Arguments Query {Σ} _ _ _ _ _ _.
Arguments Delete {Σ} _ _ _ _.
Arguments CreateIndex {Σ} _ _ _ _ _.

(** [NoSQLStorage]; the logger plays no part in the results. *)
Record NoSQLStorage (Σ : Type) := mkNoSQLStorage {
  client : NoSQLClient Σ;
  tableName : string;
}.

Arguments client {Σ} _.
Arguments tableName {Σ} _.

Definition NewNoSQLStorage {Σ} (c : NoSQLClient Σ) (table : string)
  : NoSQLStorage Σ :=
  {| client := c; tableName := table |}.

(** [fmt.Sprintf("temp:%s", key)] *)
Definition temp_key (key : string) : string := "temp:" +:+ key.

Section Storage.

Context {Σ : Type}.

(** [mapToStruct(m, &User{})]: the JSON round trip into a fresh User,
    performed by encoding/json; the decoded user and the error. *)
Variable mapToStruct_User : item -> User * option error.

Variable s : NoSQLStorage Σ.

(** [CreateUser] *)
Definition CreateUser (user : User) (σ : Σ) : Σ * option StorageError :=
  let '(σ1, (_, err)) := Get (client s) (tableName s) (User_ID user) σ in
  match err with
  | None =>
      (σ1, Some {| Code := ErrAlreadyExists;
                   Message := "User already exists";
                   Err := None |})
  | Some _ =>
      let '(σ2, err) :=
        Put (client s) (tableName s) (User_ID user) (DUser user) σ1 in
      match err with
      | Some e =>
          (σ2, Some {| Code := ErrInternal;
                       Message := "Failed to create user";
                       Err := Some e |})
      | None => (σ2, None)
      end
  end.

(** [GetUser] *)
Definition GetUser (id : string) (σ : Σ)
  : Σ * (option User * option StorageError) :=
  let '(σ1, (result, err)) := Get (client s) (tableName s) id σ in
  match err with
  | Some e =>
      (σ1, (None, Some {| Code := ErrInternal;
                          Message := "Failed to get user";
                          Err := Some e |}))
  | None =>
      match result with
      | None =>
          (σ1, (None, Some {| Code := ErrNotFound;
                              Message := "User not found";
                              Err := None |}))
      | Some m =>
          let '(user, err) := mapToStruct_User m in
          match err with
          | Some e =>
              (σ1, (None, Some {| Code := ErrInternal;
                                  Message := "Failed to unmarshal user";
                                  Err := Some e |}))
          | None => (σ1, (Some user, None))
          end
      end
  end.

(** [GetUserByEmail] *)
Definition GetUserByEmail (email : string) (σ : Σ)
  : Σ * (option User * option StorageError) :=
  let '(σ1, (results, err)) :=
    Query (client s) (tableName s) "email-index" "email = :email"
          {[ ":email" := AString email ]} σ in
  match err with
  | Some e =>
      (σ1, (None, Some {| Code := ErrInternal;
                          Message := "Failed to query user by email";
                          Err := Some e |}))
  | None =>
      match results with
      | [] =>
          (σ1, (None, Some {| Code := ErrNotFound;
                              Message := "User not found";
                              Err := None |}))
      | first :: _ =>
          let '(user, err) := mapToStruct_User first in
          match err with
          | Some e =>
              (σ1, (None, Some {| Code := ErrInternal;
                                  Message := "Failed to unmarshal user";
                                  Err := Some e |}))
          | None => (σ1, (Some user, None))
          end
      end
  end.

(** [StoreCredential] *)
Definition StoreCredential (credential : Credential) (σ : Σ)
  : Σ * option StorageError :=
  let '(σ1, err) :=
    Put (client s) (tableName s) (Credential_ID credential)
        (DCredential credential) σ in
  match err with
  | Some e =>
      (σ1, Some {| Code := ErrInternal;
                   Message := "Failed to store credential";
                   Err := Some e |})
  | None => (σ1, None)
  end.

(** [StoreTemporaryValue]; [now] is the reading of [time.Now()]. *)
Definition StoreTemporaryValue (now : Time) (key value : string)
    (expiry : Duration) (σ : Σ) : Σ * option StorageError :=
  let tempValue : item :=
    {[ "value" := AString value;
       "expires_at" := AInt64 (Unix (Add now expiry)) ]} in
  let '(σ1, err) :=
    Put (client s) (tableName s) (temp_key key) (DMap tempValue) σ in
  match err with
  | Some e =>
      (σ1, Some {| Code := ErrInternal;
                   Message := "Failed to store temporary value";
                   Err := Some e |})
  | None => (σ1, None)
  end.

(** [GetTemporaryValue]; [now] is the reading of [time.Now()]. *)
Definition GetTemporaryValue (now : Time) (key : string) (σ : Σ)
  : Σ * (string * option StorageError) :=
  let '(σ1, (result, err)) :=
    Get (client s) (tableName s) (temp_key key) σ in
  match err with
  | Some e =>
      (σ1, ("", Some {| Code := ErrInternal;
                        Message := "Failed to get temporary value";
                        Err := Some e |}))
  | None =>
      match result with
      | None =>
          (σ1, ("", Some {| Code := ErrNotFound;
                            Message := "Temporary value not found";
                            Err := None |}))
      | Some m =>
          let '(expiresAt, ok) := assert_float64 (m !! "expires_at") in
          if negb ok then
            (σ1, ("", Some {| Code := ErrInternal;
                              Message := "Invalid expiration time";
                              Err := None |}))
          else if Unix now >? int64_of_float64 expiresAt then
            let '(σ2, _) :=
              Delete (client s) (tableName s) (temp_key key) σ1 in
            (σ2, ("", Some {| Code := ErrNotFound;
                              Message := "Temporary value expired";
                              Err := None |}))
          else
            let '(value, ok) := assert_string (m !! "value") in
            if negb ok then
              (σ1, ("", Some {| Code := ErrInternal;
                                Message := "Invalid value type";
                                Err := None |}))
            else (σ1, (value, None))
      end
  end.

End Storage.

(** ** Observing the calls a storage operation makes *)

(** One entry per method call on the client. *)
Inductive call :=
| CPut (table key : string) (value : document)
| CGet (table key : string)
| CQuery (table index condition : string) (params : item)
| CDelete (table key : string)
| CCreateIndex (table index : string) (fields : list string).

(** [traced c] behaves as [c] and appends every call to a log. *)
Definition traced {Σ} (c : NoSQLClient Σ) : NoSQLClient (Σ * list call) :=
  {| Put := fun t k v '(σ, log) =>
       let '(σ', e) := Put c t k v σ in ((σ', log ++ [CPut t k v]), e);
     Get := fun t k '(σ, log) =>
       let '(σ', r) := Get c t k σ in ((σ', log ++ [CGet t k]), r);
     Query := fun t i cond ps '(σ, log) =>
       let '(σ', r) := Query c t i cond ps σ in
       ((σ', log ++ [CQuery t i cond ps]), r);
     Delete := fun t k '(σ, log) =>
       let '(σ', e) := Delete c t k σ in ((σ', log ++ [CDelete t k]), e);
     CreateIndex := fun t i fs '(σ, log) =>
       let '(σ', e) := CreateIndex c t i fs σ in
       ((σ', log ++ [CCreateIndex t i fs]), e) |}.

Definition traced_storage {Σ} (s : NoSQLStorage Σ)
  : NoSQLStorage (Σ * list call) :=
  {| client := traced (client s); tableName := tableName s |}.

(** The calls an operation [op] makes when started in state [σ]. *)
Definition calls_of {Σ A} (op : Σ * list call -> (Σ * list call) * A) (σ : Σ)
  : list call :=
  snd (fst (op (σ, []))).

(** ** An in-memory client *)

(** The client is an interface; the repository ships no implementation.
    [MemClient] is a table of documents in memory.  [Get] and [Query]
    hand documents back the way a JSON-backed store does: structs as maps
    keyed by their json tags, numbers as float64.  The flag [strict]
    selects how a missing key is reported: as an error ([true]) or as a
    nil map with a nil error ([false]). *)
Module Mem.

Abbreviation state := (gmap (string * string) document).

Definition json_value (v : any) : any :=
  match v with
  | AInt64 z => AFloat64 (float64_of_int64 z)
  | _ => v
  end.

Definition to_item (d : document) : item :=
  match d with
  | DUser u =>
      {[ "id" := AString (User_ID u);
         "email" := AString (User_Email u);
         "created_at" := ATime (User_CreatedAt u);
         "updated_at" := ATime (User_UpdatedAt u) ]}
  | DCredential c =>
      {[ "id" := AString (Credential_ID c);
         "user_id" := AString (Credential_UserID c);
         "public_key" := ABytes (Credential_PublicKey c);
         "attestation_type" := AString (Credential_AttestationType c);
         "created_at" := ATime (Credential_CreatedAt c) ]}
  | DMap m => json_value <$> m
  end.

(** The attribute an index is built on and the placeholder its
    condition compares it with. *)
Definition index_attribute (index : string) : option (string * string) :=
  if String.eqb index "email-index" then Some ("email", ":email")
  else if String.eqb index "user-credentials-index"
       then Some ("user_id", ":user_id")
  else None.

Definition string_field (m : item) (k : string) : option string :=
  match m !! k with
  | Some (AString x) => Some x
  | _ => None
  end.

Definition matches (attr param : string) (params m : item) : bool :=
  match string_field m attr, string_field params param with
  | Some x, Some y => String.eqb x y
  | _, _ => false
  end.

Definition MemClient (strict : bool) : NoSQLClient state :=
  {| Put := fun t k v σ => (<[(t, k) := v]> σ, None);
     Get := fun t k σ =>
       match σ !! (t, k) with
       | Some d => (σ, (Some (to_item d), None))
       | None =>
           (σ, (None, if strict then Some "item not found" else None))
       end;
     Query := fun t index _ params σ =>
       match index_attribute index with
       | Some (attr, param) =>
           (σ, (filter (fun m => matches attr param params m = true)
                  (omap (fun '(tk, d) =>
                           if String.eqb (fst tk) t
                           then Some (to_item d) else None)
                        (map_to_list σ)),
                None))
       | None => (σ, ([], Some "unknown index"))
       end;
     Delete := fun t k σ => (delete (t, k) σ, None);
     CreateIndex := fun _ _ _ σ => (σ, None) |}.

(** The fields [mapToStruct] decodes, over the items this client hands
    out: a text attribute is read through JSON ([json_string]), a time
    attribute is a time of the years 0 to 9999, an absent or null
    attribute leaves the field at its zero value.  An attribute of
    another dynamic type is reported as an error: the decoders do not
    model the text form of a time or of a byte slice, nor the matching
    of keys up to letter case. *)
Definition string_attribute (m : item) (k : string) : option string :=
  match m !! k with
  | None | Some ANil => Some ""
  | Some (AString x) => Some (json_string x)
  | Some _ => None
  end.

Definition time_attribute (m : item) (k : string) : option Time :=
  match m !! k with
  | None | Some ANil => Some zero_Time
  | Some (ATime t) => if json_year_ok t then Some t else None
  | Some _ => None
  end.

Definition bytes_attribute (m : item) (k : string) : option (list Z) :=
  match m !! k with
  | None | Some ANil => Some []
  | Some (ABytes b) => Some b
  | Some _ => None
  end.

(** A decoder for [mapToStruct] into a [User]. *)
Definition decode_User (m : item) : User * option error :=
  match string_attribute m "id", string_attribute m "email",
        time_attribute m "created_at", time_attribute m "updated_at" with
  | Some i, Some e, Some c, Some u => (mkUser i e c u, None)
  | _, _, _, _ =>
      (mkUser "" "" zero_Time zero_Time,
       Some "json: cannot unmarshal into Go struct field")
  end.

Definition storage (strict : bool) (table : string) : NoSQLStorage state :=
  NewNoSQLStorage (MemClient strict) table.

End Mem.

(** ** grpc.go: the AuthService handlers *)

Module Auth.

(** gRPC status codes (google.golang.org/grpc/codes). *)
Inductive Code :=
| OK | Canceled | Unknown | InvalidArgument | DeadlineExceeded | NotFound
| AlreadyExists | PermissionDenied | ResourceExhausted | FailedPrecondition
| Aborted | OutOfRange | Unimplemented | Internal | Unavailable | DataLoss
| Unauthenticated.

(** The error built by [status.Error(code, msg)]. *)
Record Status := mkStatus { code : Code; message : string }.

Definition status_Error (c : Code) (msg : string) : option Status :=
  match c with
  | OK => None
  | _ => Some (mkStatus c msg)
  end.

(** Messages of the service, with the fields of the generated Go
    structs.  The handlers fill [created_at] with a Unix time. *)
Record User := mkUser {
  Id : string;
  Email : string;
  CreatedAt : option Z;
  UpdatedAt : option Z;
}.

Record PasskeyCredential := mkPasskeyCredential {
  Credential_Id : string;
  RawId : list Z;
  Credential_Type : string;
  Response : list Z;
}.

(** The oneof [auth_method]. *)
Inductive AuthMethod :=
| NoAuthMethod
| Password (password : string)
| Passkey (passkey : option PasskeyCredential).

Record AuthenticateRequest := mkAuthenticateRequest {
  Req_Email : string;
  Req_AuthMethod : AuthMethod;
  MfaCode : string;
}.

Record AuthenticateResponse := mkAuthenticateResponse {
  Token : string;
  ExpiresAt : Z;
  Resp_User : option User;
  RequiresMfa : bool;
}.

Record ValidateTokenRequest := mkValidateTokenRequest {
  Req_Token : string;
}.

Record ValidateTokenResponse := mkValidateTokenResponse {
  Valid : bool;
  Validated_User : option User;
}.

Record PasskeyOptions := mkPasskeyOptions {
  Challenge : string;
  RpId : string;
  RpName : string;
  AllowedCredentials : list string;
  UserVerification : string;
  Attestation : string;
}.

Record RegisterPasskeyRequest := mkRegisterPasskeyRequest {
  Register_UserId : string;
}.

Record RegisterPasskeyResponse := mkRegisterPasskeyResponse {
  Options : option PasskeyOptions;
}.

Record VerifyPasskeyRequest := mkVerifyPasskeyRequest {
  Verify_UserId : string;
  Verify_Credential : option PasskeyCredential;
}.

Record VerifyPasskeyResponse := mkVerifyPasskeyResponse {
  Success : bool;
}.

Record MFAMethod := mkMFAMethod {
  Method_Id : string;
  Method_Type : string;
  Method_CreatedAt : Z;
}.

Record MFASetupData := mkMFASetupData {
  Setup_Type : string;
  Setup_Data : string;
}.

Record AddMFAMethodRequest := mkAddMFAMethodRequest {
  Add_UserId : string;
  Add_Method : string;
}.

Record AddMFAMethodResponse := mkAddMFAMethodResponse {
  SetupData : option MFASetupData;
}.

Record VerifyMFAMethodRequest := mkVerifyMFAMethodRequest {
  VerifyMFA_UserId : string;
  VerifyMFA_Method : string;
  VerifyMFA_Code : string;
}.

Record VerifyMFAMethodResponse := mkVerifyMFAMethodResponse {
  VerifyMFA_Success : bool;
}.

Record RemoveMFAMethodRequest := mkRemoveMFAMethodRequest {
  Remove_UserId : string;
  Remove_MethodId : string;
}.

Record RemoveMFAMethodResponse := mkRemoveMFAMethodResponse {
  Remove_Success : bool;
}.

Record GetMFAMethodsRequest := mkGetMFAMethodsRequest {
  Methods_UserId : string;
}.

Record GetMFAMethodsResponse := mkGetMFAMethodsResponse {
  Methods : list MFAMethod;
}.

(** What a handler returns: the response pointer and the error. *)
Definition result (A : Type) : Type := option A * option Status.

(** [len(s)] of a Go string: its number of bytes. *)
Definition len (s : string) : Z := Z.of_nat (String.length s).

(** [Authenticate]; [now] is the reading of [time.Now()]. *)
Definition Authenticate (now : Time) (req : option AuthenticateRequest)
  : result AuthenticateResponse :=
  match req with
  | None => (None, status_Error InvalidArgument "request cannot be nil")
  | Some _ =>
      (Some {| Token := "dummy-token";
               ExpiresAt := Unix (Add now (24 * Hour));
               Resp_User := None;
               RequiresMfa := false |},
       None)
  end.

(** [ValidateToken] *)
Definition ValidateToken (req : option ValidateTokenRequest)
  : result ValidateTokenResponse :=
  match req with
  | None => (None, status_Error InvalidArgument "invalid token")
  | Some r =>
      if String.eqb (Req_Token r) ""
      then (None, status_Error InvalidArgument "invalid token")
      else
        (Some {| Valid := true;
                 Validated_User :=
                   Some {| Id := "dummy-user-id";
                           Email := "user@example.com";
                           CreatedAt := None;
                           UpdatedAt := None |} |},
         None)
  end.

(** [RegisterPasskey] *)
Definition RegisterPasskey (req : option RegisterPasskeyRequest)
  : result RegisterPasskeyResponse :=
  match req with
  | None => (None, status_Error InvalidArgument "invalid request")
  | Some r =>
      if String.eqb (Register_UserId r) ""
      then (None, status_Error InvalidArgument "invalid request")
      else
        (Some {| Options :=
                   Some {| Challenge := "dummy-challenge";
                           RpId := "auth.polyid.io";
                           RpName := "PolyID";
                           AllowedCredentials := [];
                           UserVerification := "";
                           Attestation := "" |} |},
         None)
  end.

(** [VerifyPasskey] *)
Definition VerifyPasskey (req : option VerifyPasskeyRequest)
  : result VerifyPasskeyResponse :=
  match req with
  | None => (None, status_Error InvalidArgument "invalid request")
  | Some r =>
      if String.eqb (Verify_UserId r) ""
      then (None, status_Error InvalidArgument "invalid request")
      else
        match Verify_Credential r with
        | None => (None, status_Error InvalidArgument "invalid request")
        | Some _ => (Some {| Success := true |}, None)
        end
  end.

(** [AddMFAMethod] *)
Definition AddMFAMethod (req : option AddMFAMethodRequest)
  : result AddMFAMethodResponse :=
  match req with
  | None => (None, status_Error InvalidArgument "invalid request")
  | Some r =>
      if String.eqb (Add_UserId r) "" || String.eqb (Add_Method r) ""
      then (None, status_Error InvalidArgument "invalid request")
      else
        (Some {| SetupData :=
                   Some {| Setup_Type := Add_Method r;
                           Setup_Data := "dummy-setup-data" |} |},
         None)
  end.

(** [VerifyMFAMethod] *)
Definition VerifyMFAMethod (req : option VerifyMFAMethodRequest)
  : result VerifyMFAMethodResponse :=
  match req with
  | None => (None, status_Error InvalidArgument "invalid request")
  | Some r =>
      if String.eqb (VerifyMFA_UserId r) ""
         || String.eqb (VerifyMFA_Method r) ""
         || String.eqb (VerifyMFA_Code r) ""
      then (None, status_Error InvalidArgument "invalid request")
      else (Some {| VerifyMFA_Success := true |}, None)
  end.

(** [RemoveMFAMethod] *)
Definition RemoveMFAMethod (req : option RemoveMFAMethodRequest)
  : result RemoveMFAMethodResponse :=
  match req with
  | None => (None, status_Error InvalidArgument "invalid request")
  | Some r =>
      if String.eqb (Remove_UserId r) "" || String.eqb (Remove_MethodId r) ""
      then (None, status_Error InvalidArgument "invalid request")
      else (Some {| Remove_Success := true |}, None)
  end.

(** [GetMFAMethods]; [now] is the reading of [time.Now()]. *)
Definition GetMFAMethods (now : Time) (req : option GetMFAMethodsRequest)
  : result GetMFAMethodsResponse :=
  match req with
  | None => (None, status_Error InvalidArgument "invalid request")
  | Some r =>
      if String.eqb (Methods_UserId r) ""
      then (None, status_Error InvalidArgument "invalid request")
      else
        (Some {| Methods :=
                   [ {| Method_Id := "dummy-method-id";
                        Method_Type := "totp";
                        Method_CreatedAt := Unix now |} ] |},
         None)
  end.

(** *** The service as a machine

    An [AuthService] holds a logger and nothing else, so a run of the
    service is the list of its replies, each computed from the request
    and the clock reading at the call. *)
Inductive rpc :=
| CallAuthenticate (req : option AuthenticateRequest)
| CallValidateToken (req : option ValidateTokenRequest)
| CallRegisterPasskey (req : option RegisterPasskeyRequest)
| CallVerifyPasskey (req : option VerifyPasskeyRequest)
| CallAddMFAMethod (req : option AddMFAMethodRequest)
| CallVerifyMFAMethod (req : option VerifyMFAMethodRequest)
| CallRemoveMFAMethod (req : option RemoveMFAMethodRequest)
| CallGetMFAMethods (req : option GetMFAMethodsRequest).

Inductive reply :=
| ReplyAuthenticate (r : result AuthenticateResponse)
| ReplyValidateToken (r : result ValidateTokenResponse)
| ReplyRegisterPasskey (r : result RegisterPasskeyResponse)
| ReplyVerifyPasskey (r : result VerifyPasskeyResponse)
| ReplyAddMFAMethod (r : result AddMFAMethodResponse)
| ReplyVerifyMFAMethod (r : result VerifyMFAMethodResponse)
| ReplyRemoveMFAMethod (r : result RemoveMFAMethodResponse)
| ReplyGetMFAMethods (r : result GetMFAMethodsResponse).

Definition handle (now : Time) (c : rpc) : reply :=
  match c with
  | CallAuthenticate req => ReplyAuthenticate (Authenticate now req)
  | CallValidateToken req => ReplyValidateToken (ValidateToken req)
  | CallRegisterPasskey req => ReplyRegisterPasskey (RegisterPasskey req)
  | CallVerifyPasskey req => ReplyVerifyPasskey (VerifyPasskey req)
  | CallAddMFAMethod req => ReplyAddMFAMethod (AddMFAMethod req)
  | CallVerifyMFAMethod req => ReplyVerifyMFAMethod (VerifyMFAMethod req)
  | CallRemoveMFAMethod req => ReplyRemoveMFAMethod (RemoveMFAMethod req)
  | CallGetMFAMethods req => ReplyGetMFAMethods (GetMFAMethods now req)
  end.

Definition serve (calls : list (Time * rpc)) : list reply :=
  map (fun '(now, c) => handle now c) calls.

(** The error of a reply and its status code. *)
Definition reply_error (r : reply) : option Status :=
  match r with
  | ReplyAuthenticate r => snd r
  | ReplyValidateToken r => snd r
  | ReplyRegisterPasskey r => snd r
  | ReplyVerifyPasskey r => snd r
  | ReplyAddMFAMethod r => snd r
  | ReplyVerifyMFAMethod r => snd r
  | ReplyRemoveMFAMethod r => snd r
  | ReplyGetMFAMethods r => snd r
  end.

Definition reply_code (r : reply) : Code :=
  match reply_error r with
  | Some st => code st
  | None => OK
  end.

End Auth.

(** ** fmt: the verb %06d *)

Module Fmt.

Definition digit (d : Z) : ascii := ascii_of_nat (48 + Z.to_nat d).

(** The decimal digits of [n >= 0], most significant first; [fuel] bounds
    their number. *)
Fixpoint decimal (fuel : nat) (n : Z) : list ascii :=
  match fuel with
  | O => []
  | S fuel' =>
      if n <? 10 then [digit n]
      else decimal fuel' (n / 10) ++ [digit (n mod 10)]
  end.

(** An int64 has at most 19 digits. *)
Definition itoa (n : Z) : list ascii := decimal 19 n.

Definition pad (width : nat) (l : list ascii) : list ascii :=
  repeat "0"%char (width - length l) ++ l.

(** [fmt.Sprintf("%06d", v)]: at least six characters, zeros between the
    sign and the digits. *)
Definition Sprintf_06d (v : Z) : string :=
  if v <? 0
  then String.string_of_list_ascii ("-"%char :: pad 5 (itoa (- v)))
  else String.string_of_list_ascii (pad 6 (itoa v)).

Definition is_digit (a : ascii) : bool :=
  let n := nat_of_ascii a in (48 <=? n)%nat && (n <=? 57)%nat.

End Fmt.

(** ** package mfa: the TOTP handlers *)

Module MFA.

(** What a handler reads from its [*gin.Context]: the posted form. *)
Record GinContext := mkGinContext {
  PostForm : string -> string;
}.

(** What [c.JSON(status, gin.H{...})] writes. *)
Record Response := mkResponse {
  status : Z;
  body : item;
}.

Definition StatusOK : Z := 200.
Definition StatusBadRequest : Z := 400.
Definition StatusUnauthorized : Z := 401.
Definition StatusInternalServerError : Z := 500.

(** [getUserIDFromContext] *)
Definition getUserIDFromContext (c : GinContext) : string := "".

(** [storeTemporarySecret] *)
Definition storeTemporarySecret (userID secret : string) : option error :=
  None.

(** [getTemporarySecret] *)
Definition getTemporarySecret (userID : string) : string := "".

(** [storeVerifiedTOTPSecret] *)
Definition storeVerifiedTOTPSecret (userID secret : string)
  : option error :=
  None.

(** [totp.GenerateOpts] and the accessors of the generated [*otp.Key]. *)
Record GenerateOpts := mkGenerateOpts {
  Issuer : string;
  AccountName : string;
  Secret : string;
}.

Record Key := mkKey {
  Key_Secret : string;
  Key_URL : string;
}.

Section Handlers.

(** The library functions the handlers call. *)
Variable base32_EncodeToString : list Z -> string.
Variable totp_Generate : GenerateOpts -> Key * option error.
Variable totp_Validate : string -> string -> bool.

(** [SetupTOTP]; [random] is what [rand.Read] puts into the 20-byte
    buffer together with its error. *)
Definition SetupTOTP (random : list Z * option error) (c : GinContext)
  : Response :=
  let userID := getUserIDFromContext c in
  let '(secret, err) := random in
  match err with
  | Some _ =>
      mkResponse StatusInternalServerError
        {[ "error" := AString "Failed to setup TOTP" ]}
  | None =>
      let '(key, err) :=
        totp_Generate
          {| Issuer := "PolyID";
             AccountName := userID;
             Secret := base32_EncodeToString secret |} in
      match err with
      | Some _ =>
          mkResponse StatusInternalServerError
            {[ "error" := AString "Failed to setup TOTP" ]}
      | None =>
          let _ := storeTemporarySecret userID (Key_Secret key) in
          mkResponse StatusOK
            {[ "secret" := AString (Key_Secret key);
               "qr" := AString (Key_URL key) ]}
      end
  end.

(** [VerifyTOTP] *)
Definition VerifyTOTP (c : GinContext) : Response :=
  let userID := getUserIDFromContext c in
  let code := PostForm c "code" in
  let secret := getTemporarySecret userID in
  if String.eqb secret "" then
    mkResponse StatusBadRequest
      {[ "error" := AString "No TOTP setup in progress" ]}
  else
    let valid := totp_Validate code secret in
    if negb valid then
      mkResponse StatusUnauthorized
        {[ "error" := AString "Invalid TOTP code" ]}
    else
      match storeVerifiedTOTPSecret userID secret with
      | Some _ =>
          mkResponse StatusInternalServerError
            {[ "error" := AString "Failed to complete TOTP setup" ]}
      | None =>
          mkResponse StatusOK
            {[ "message" := AString "TOTP setup completed" ]}
      end.

End Handlers.

(** *** SMS and app-link *)

(** [time.Now().UnixNano()]: an int64, which holds the nanoseconds of
    the instants from 1678 to 2262 and wraps around outside them. *)
Definition UnixNano (now : Time) : Z := wrap_int64 now.

(** [generateVerificationCode]; the remainder is Go's, of the sign of the
    dividend. *)
Definition generateVerificationCode (now : Time) (length : Z) : string :=
  Fmt.Sprintf_06d (Z.rem (UnixNano now) 1000000).

(** [storeSMSVerificationCode] *)
Definition storeSMSVerificationCode (userID phoneNumber code : string)
  : option error :=
  None.

(** [verifySMSCode] *)
Definition verifySMSCode (userID phoneNumber code : string)
  : bool * option error :=
  (false, None).

(** [storeVerifiedPhoneNumber] *)
Definition storeVerifiedPhoneNumber (userID phoneNumber : string)
  : option error :=
  None.

(** [storeAppLinkChallenge] *)
Definition storeAppLinkChallenge (userID challenge : string) : option error :=
  None.

(** [verifyAppLinkResponse] *)
Definition verifyAppLinkResponse (userID challenge signature : string)
  : bool * option error :=
  (false, None).

(** One entry of the logger: the message and its string fields. *)
Record LogEntry := mkLogEntry {
  log_msg : string;
  log_fields : list (string * string);
}.

Section OtherHandlers.

Variable base32_EncodeToString : list Z -> string.

(** [generateChallenge]; [random] is what [rand.Read] leaves in the
    32-byte buffer together with its error, which is dropped. *)
Definition generateChallenge (random : list Z * option error) : string :=
  base32_EncodeToString (fst random).

(** [SendSMS], with what it writes to the log. *)
Definition SendSMS (now : Time) (c : GinContext) : Response * list LogEntry :=
  let userID := getUserIDFromContext c in
  let phoneNumber := PostForm c "phone_number" in
  let code := generateVerificationCode now 6 in
  match storeSMSVerificationCode userID phoneNumber code with
  | Some e =>
      (mkResponse StatusInternalServerError
         {[ "error" := AString "Failed to send verification code" ]},
       [mkLogEntry "Failed to store SMS verification code" [("error", e)]])
  | None =>
      (mkResponse StatusOK
         {[ "message" := AString "Verification code sent" ]},
       [mkLogEntry "SMS verification code"
          [("user_id", userID); ("phone", phoneNumber); ("code", code)]])
  end.

(** [VerifySMS] *)
Definition VerifySMS (c : GinContext) : Response :=
  let userID := getUserIDFromContext c in
  let phoneNumber := PostForm c "phone_number" in
  let code := PostForm c "code" in
  let '(valid, err) := verifySMSCode userID phoneNumber code in
  match err with
  | Some _ =>
      mkResponse StatusInternalServerError
        {[ "error" := AString "Failed to verify code" ]}
  | None =>
      if negb valid then
        mkResponse StatusUnauthorized
          {[ "error" := AString "Invalid verification code" ]}
      else
        match storeVerifiedPhoneNumber userID phoneNumber with
        | Some _ =>
            mkResponse StatusInternalServerError
              {[ "error" := AString "Failed to complete phone verification" ]}
        | None =>
            mkResponse StatusOK
              {[ "message" := AString "Phone number verified" ]}
        end
  end.

(** [InitiateAppLink] *)
Definition InitiateAppLink (random : list Z * option error) (c : GinContext)
  : Response :=
  let userID := getUserIDFromContext c in
  let challenge := generateChallenge random in
  match storeAppLinkChallenge userID challenge with
  | Some _ =>
      mkResponse StatusInternalServerError
        {[ "error" := AString "Failed to initiate app-link verification" ]}
  | None =>
      mkResponse StatusOK
        {[ "challenge" := AString challenge; "expires_in" := AInt64 300 ]}
  end.

(** [VerifyAppLink] *)
Definition VerifyAppLink (c : GinContext) : Response :=
  let userID := getUserIDFromContext c in
  let challenge := PostForm c "challenge" in
  let signature := PostForm c "signature" in
  let '(valid, err) := verifyAppLinkResponse userID challenge signature in
  match err with
  | Some _ =>
      mkResponse StatusInternalServerError
        {[ "error" := AString "Failed to verify app-link" ]}
  | None =>
      if negb valid then
        mkResponse StatusUnauthorized
          {[ "error" := AString "Invalid app-link verification" ]}
      else
        mkResponse StatusOK
          {[ "message" := AString "App-link verification successful" ]}
  end.

End OtherHandlers.

End MFA.

(** ** Session records *)

(** Modelled from the spec: the session records of the Storage Port and
    [Revoke].  The [Storage] interface declares [StoreSession],
    [GetSession] and [DeleteSession]; no type of the repository
    implements them.  The spec has a session as
    {token, user_id, expires_at}, kept under its session id, and has
    [Revoke(session_id)] remove the session record. *)
Module Sessions.

Record Session := mkSession {
  Session_Token : string;
  Session_UserID : string;
  Session_ExpiresAt : Z;
}.

Abbreviation store := (gmap string Session).

Definition StoreSession (now : Time) (sessionID token userID : string)
    (expiry : Duration) (σ : store) : store :=
  <[sessionID := mkSession token userID (Unix (Add now expiry))]> σ.

Definition Revoke (sessionID : string) (σ : store) : store :=
  delete sessionID σ.

End Sessions.

(** ** States of the in-memory store *)

(** The states the implemented operations of [NoSQLStorage] lead to,
    starting from the empty table.  [GetUser] and [GetUserByEmail] only
    read. *)
Inductive reachable (strict : bool) (table : string) : Mem.state -> Prop :=
| reach_empty :
    reachable strict table ∅
| reach_CreateUser σ user :
    reachable strict table σ ->
    reachable strict table (fst (CreateUser (Mem.storage strict table) user σ))
| reach_StoreCredential σ credential :
    reachable strict table σ ->
    reachable strict table
      (fst (StoreCredential (Mem.storage strict table) credential σ))
| reach_StoreTemporaryValue σ now key value expiry :
    reachable strict table σ ->
    reachable strict table
      (fst (StoreTemporaryValue (Mem.storage strict table) now key value
              expiry σ))
| reach_GetTemporaryValue σ now key :
    reachable strict table σ ->
    reachable strict table
      (fst (GetTemporaryValue (Mem.storage strict table) now key σ)).

(** No two user records of [table] carry the same email / the same id. *)
Definition email_unique (table : string) (σ : Mem.state) : Prop :=
  forall k1 k2 u1 u2,
    σ !! (table, k1) = Some (DUser u1) ->
    σ !! (table, k2) = Some (DUser u2) ->
    User_Email u1 = User_Email u2 -> k1 = k2.

Definition id_unique (table : string) (σ : Mem.state) : Prop :=
  forall k1 k2 u1 u2,
    σ !! (table, k1) = Some (DUser u1) ->
    σ !! (table, k2) = Some (DUser u2) ->
    User_ID u1 = User_ID u2 -> k1 = k2.

(** Every user record sits under its own id. *)
Definition keyed_by_id (σ : Mem.state) : Prop :=
  forall t k u, σ !! (t, k) = Some (DUser u) -> User_ID u = k.

(** ** Sample data *)

Module Samples.

Definition alice := mkUser "u1" "a@example.com" 0 0.
Definition alias := mkUser "u2" "a@example.com" 0 0.

Definition strict_users := Mem.storage true "users".
Definition lenient_users := Mem.storage false "users".

(** Two registrations with one email, on a store that reports a missing
    key as an error. *)
Definition after_alice : Mem.state := fst (CreateUser strict_users alice ∅).
Definition after_alias : Mem.state :=
  fst (CreateUser strict_users alias after_alice).

(** 2023-11-14T22:13:20.123456789Z *)
Definition t0 : Time := 1700000000123456789.
Definition five_minutes : Duration := 300 * Second.

Definition with_challenge : Mem.state :=
  fst (StoreTemporaryValue strict_users t0 "reg:u1" "c2VjcmV0"
         five_minutes ∅).

(** The item a JSON-backed client hands back for the stored challenge. *)
Definition challenge_item : item :=
  {[ "value" := AString "c2VjcmV0";
     "expires_at" := AFloat64 (float64_of_int64 1700000300) ]}.

(** The last nanosecond of the second in which the challenge expires. *)
Definition at_expiry : Time := 1700000300999999999.

(** A passkey response and the request that carries it. *)
Definition response : Auth.PasskeyCredential :=
  Auth.mkPasskeyCredential "cred-1" [1; 2; 3] "public-key" [4; 5; 6].
Definition verify_u1 : Auth.VerifyPasskeyRequest :=
  Auth.mkVerifyPasskeyRequest "u1" (Some response).
Definition register_u1 : Auth.RegisterPasskeyRequest :=
  Auth.mkRegisterPasskeyRequest "u1".

(** One session, then revoked. *)
Definition one_session : Sessions.store :=
  Sessions.StoreSession t0 "s1" "token-of-s1" "u1" (24 * Hour) ∅.
Definition revoked : Sessions.store := Sessions.Revoke "s1" one_session.

(** Accounts as (email, password). *)
Definition accounts : list (string * string) :=
  [("a@example.com", "correct horse")].
Definition unknown_email : Auth.AuthenticateRequest :=
  Auth.mkAuthenticateRequest "nobody@example.com" (Auth.Password "x") "".
Definition wrong_password : Auth.AuthenticateRequest :=
  Auth.mkAuthenticateRequest "a@example.com" (Auth.Password "battery") "".

Definition methods_u1 : Auth.GetMFAMethodsRequest :=
  Auth.mkGetMFAMethodsRequest "u1".

(** Stand-ins for the otp library: [totp.Generate] refuses an empty
    issuer and an empty account name, the key it returns carries the
    secret it was given, and exactly one code is valid for that secret. *)
Definition base32 (bytes : list Z) : string := "JBSWY3DPEHPK3PXP".
Definition generate (o : MFA.GenerateOpts) : MFA.Key * option error :=
  if String.eqb (MFA.Issuer o) ""
  then (MFA.mkKey "" "", Some "Issuer must be set")
  else if String.eqb (MFA.AccountName o) ""
  then (MFA.mkKey "" "", Some "AccountName must be set")
  else (MFA.mkKey (MFA.Secret o) "otpauth://totp/PolyID", None).
Definition validate (code secret : string) : bool :=
  String.eqb code "492039" && String.eqb secret "JBSWY3DPEHPK3PXP".
Definition entropy : list Z * option error := (repeat 7 20, None).
Definition form (code : string) : MFA.GinContext :=
  MFA.mkGinContext (fun k => if String.eqb k "code" then code else "").

End Samples.

(** ** nosql.go: credentials *)

(** [MFAMethod] of package storage. *)
Record MFAMethod := mkMFAMethod {
  MFAMethod_ID : string;
  MFAMethod_UserID : string;
  MFAMethod_Type : string;
  MFAMethod_Value : string;
  MFAMethod_CreatedAt : Time;
  MFAMethod_UpdatedAt : Time;
}.

Section Credentials.

Context {Σ : Type}.

(** [mapToStruct(result, &Credential{})] *)
Variable mapToStruct_Credential : item -> Credential * option error.

Variable s : NoSQLStorage Σ.

(** The loop of [GetCredentials] over the query results; [credentials]
    is the slice built so far.  The loop ends with the slice or with the
    first decoding error. *)
Fixpoint GetCredentials_loop (results : list item)
    (credentials : list Credential) : list Credential + error :=
  match results with
  | [] => inl credentials
  | result :: rest =>
      let '(credential, err) := mapToStruct_Credential result in
      match err with
      | Some e => inr e
      | None => GetCredentials_loop rest (credentials ++ [credential])
      end
  end.

(** [GetCredentials]; the slice is [Some] whenever it is not nil. *)
Definition GetCredentials (userID : string) (σ : Σ)
  : Σ * (option (list Credential) * option StorageError) :=
  let '(σ1, (results, err)) :=
    Query (client s) (tableName s) "user-credentials-index"
          "user_id = :user_id" {[ ":user_id" := AString userID ]} σ in
  match err with
  | Some e =>
      (σ1, (None, Some {| Code := ErrInternal;
                          Message := "Failed to query credentials";
                          Err := Some e |}))
  | None =>
      match GetCredentials_loop results [] with
      | inr e =>
          (σ1, (None, Some {| Code := ErrInternal;
                              Message := "Failed to unmarshal credential";
                              Err := Some e |}))
      | inl credentials => (σ1, (Some credentials, None))
      end
  end.

End Credentials.

(** A decoder for [mapToStruct] into a [Credential], in the manner of
    [Mem.decode_User]. *)
Definition decode_Credential (m : item) : Credential * option error :=
  match Mem.string_attribute m "id", Mem.string_attribute m "user_id",
        Mem.bytes_attribute m "public_key",
        Mem.string_attribute m "attestation_type",
        Mem.time_attribute m "created_at" with
  | Some i, Some u, Some p, Some a, Some c => (mkCredential i u p a c, None)
  | _, _, _, _, _ =>
      (mkCredential "" "" [] "" zero_Time,
       Some "json: cannot unmarshal into Go struct field")
  end.

(** ** redis.go: the cache *)

Module RedisCache.

(** Errors of the Redis client: the sentinel [redis.Nil] of a missing key,
    or any other error, kept as its message. *)
Inductive redis_error :=
| redis_Nil
| redis_failure (msg : string).

(** [err.Error()] *)
Definition error_message (e : redis_error) : error :=
  match e with
  | redis_Nil => "redis: nil"
  | redis_failure msg => msg
  end.

(** The commands of [*redis.Client] the cache uses, over a client state
    [Σ]; each returns what [.Result()] or [.Err()] gives. *)
Record Client (Σ : Type) := mkClient {
  redis_Get : string -> Σ -> Σ * (string * option redis_error);
  redis_Set : string -> string -> Duration -> Σ -> Σ * option redis_error;
  redis_Del : list string -> Σ -> Σ * option redis_error;
  redis_Keys : string -> Σ -> Σ * (list string * option redis_error);
}.

Arguments redis_Get {Σ} _ _ _.
Arguments redis_Set {Σ} _ _ _ _ _.
Arguments redis_Del {Σ} _ _ _.
Arguments redis_Keys {Σ} _ _ _.

(** A slice of pointers, [[]*T]: the slice can be nil, and so can each
    of its elements (JSON [null] decodes to either). *)
Definition pointers (T : Type) : Type := option (list (option T)).

(** The JSON codec of one cached type: [json.Marshal] and
    [json.Unmarshal] into a fresh value. *)
Record Codec (T : Type) := mkCodec {
  Marshal : T -> string * option error;
  Unmarshal : string -> T * option error;
}.

Arguments Marshal {T} _ _.
Arguments Unmarshal {T} _ _.

Section Cache.

Context {Σ : Type}.
Variable c : Client Σ.
Variable json_User : Codec User.
Variable json_Credentials : Codec (pointers Credential).
Variable json_MFAMethods : Codec (pointers MFAMethod).

(** [Get] *)
Definition Get (key : string) (σ : Σ) : Σ * (string * option StorageError) :=
  let '(σ1, (val, err)) := redis_Get c key σ in
  match err with
  | Some redis_Nil =>
      (σ1, ("", Some {| Code := ErrNotFound;
                        Message := "Cache key not found";
                        Err := None |}))
  | Some e =>
      (σ1, ("", Some {| Code := ErrInternal;
                        Message := "Failed to get from cache";
                        Err := Some (error_message e) |}))
  | None => (σ1, (val, None))
  end.

(** [Set]; the name is a keyword here, hence the underscore. *)
Definition Set_ (key value : string) (expiration : Duration) (σ : Σ)
  : Σ * option StorageError :=
  let '(σ1, err) := redis_Set c key value expiration σ in
  match err with
  | Some e =>
      (σ1, Some {| Code := ErrInternal;
                   Message := "Failed to set cache value";
                   Err := Some (error_message e) |})
  | None => (σ1, None)
  end.

(** [Delete] *)
Definition Delete (key : string) (σ : Σ) : Σ * option StorageError :=
  let '(σ1, err) := redis_Del c [key] σ in
  match err with
  | Some e =>
      (σ1, Some {| Code := ErrInternal;
                   Message := "Failed to delete cache value";
                   Err := Some (error_message e) |})
  | None => (σ1, None)
  end.

(** [GetUser] *)
Definition GetUser (userID : string) (σ : Σ)
  : Σ * (option User * option StorageError) :=
  let key := "user:" +:+ userID in
  let '(σ1, (data, err)) := Get key σ in
  match err with
  | Some e => (σ1, (None, Some e))
  | None =>
      let '(user, err) := Unmarshal json_User data in
      match err with
      | Some e =>
          (σ1, (None, Some {| Code := ErrInternal;
                              Message := "Failed to unmarshal user from cache";
                              Err := Some e |}))
      | None => (σ1, (Some user, None))
      end
  end.

(** [SetUser] *)
Definition SetUser (user : User) (expiration : Duration) (σ : Σ)
  : Σ * option StorageError :=
  let key := "user:" +:+ User_ID user in
  let '(data, err) := Marshal json_User user in
  match err with
  | Some e =>
      (σ, Some {| Code := ErrInternal;
                  Message := "Failed to marshal user for cache";
                  Err := Some e |})
  | None => Set_ key data expiration σ
  end.

(** [GetCredentials]; the slice returned without an error is the decoded
    one, nil when the cached text is [null]. *)
Definition GetCredentials (userID : string) (σ : Σ)
  : Σ * (pointers Credential * option StorageError) :=
  let key := "credentials:" +:+ userID in
  let '(σ1, (data, err)) := Get key σ in
  match err with
  | Some e => (σ1, (None, Some e))
  | None =>
      let '(credentials, err) := Unmarshal json_Credentials data in
      match err with
      | Some e =>
          (σ1, (None,
                Some {| Code := ErrInternal;
                        Message := "Failed to unmarshal credentials from cache";
                        Err := Some e |}))
      | None => (σ1, (credentials, None))
      end
  end.

(** [SetCredentials] *)
Definition SetCredentials (userID : string)
    (credentials : pointers Credential)
    (expiration : Duration) (σ : Σ) : Σ * option StorageError :=
  let key := "credentials:" +:+ userID in
  let '(data, err) := Marshal json_Credentials credentials in
  match err with
  | Some e =>
      (σ, Some {| Code := ErrInternal;
                  Message := "Failed to marshal credentials for cache";
                  Err := Some e |})
  | None => Set_ key data expiration σ
  end.

(** [GetMFAMethods]; as for [GetCredentials]. *)
Definition GetMFAMethods (userID : string) (σ : Σ)
  : Σ * (pointers MFAMethod * option StorageError) :=
  let key := "mfa:" +:+ userID in
  let '(σ1, (data, err)) := Get key σ in
  match err with
  | Some e => (σ1, (None, Some e))
  | None =>
      let '(methods, err) := Unmarshal json_MFAMethods data in
      match err with
      | Some e =>
          (σ1, (None,
                Some {| Code := ErrInternal;
                        Message := "Failed to unmarshal MFA methods from cache";
                        Err := Some e |}))
      | None => (σ1, (methods, None))
      end
  end.

(** [SetMFAMethods] *)
Definition SetMFAMethods (userID : string)
    (methods : pointers MFAMethod)
    (expiration : Duration) (σ : Σ) : Σ * option StorageError :=
  let key := "mfa:" +:+ userID in
  let '(data, err) := Marshal json_MFAMethods methods in
  match err with
  | Some e =>
      (σ, Some {| Code := ErrInternal;
                  Message := "Failed to marshal MFA methods for cache";
                  Err := Some e |})
  | None => Set_ key data expiration σ
  end.

(** The loop of [InvalidateUser] over the remaining patterns. *)
Fixpoint InvalidateUser_loop (patterns : list string) (σ : Σ)
  : Σ * option StorageError :=
  match patterns with
  | [] => (σ, None)
  | pattern :: rest =>
      let '(σ1, (keys, err)) := redis_Keys c pattern σ in
      match err with
      | Some e =>
          (σ1, Some {| Code := ErrInternal;
                       Message := "Failed to get cache keys";
                       Err := Some (error_message e) |})
      | None =>
          if (0 <? Z.of_nat (length keys)) then
            let '(σ2, err) := redis_Del c keys σ1 in
            match err with
            | Some e =>
                (σ2, Some {| Code := ErrInternal;
                             Message := "Failed to delete cache keys";
                             Err := Some (error_message e) |})
            | None => InvalidateUser_loop rest σ2
            end
          else InvalidateUser_loop rest σ1
      end
  end.

(** [InvalidateUser] *)
Definition InvalidateUser (userID : string) (σ : Σ)
  : Σ * option StorageError :=
  let patterns :=
    [ "user:" +:+ userID;
      "credentials:" +:+ userID;
      "mfa:" +:+ userID ] in
  InvalidateUser_loop patterns σ.

End Cache.

(** The commands a cache operation sends. *)
Inductive command :=
| CmdGet (key : string)
| CmdSet (key value : string) (expiration : Duration)
| CmdDel (keys : list string)
| CmdKeys (pattern : string).

(** [logged c] behaves as [c] and appends every command to a log. *)
Definition logged {Σ} (c : Client Σ) : Client (Σ * list command) :=
  {| redis_Get := fun k '(σ, log) =>
       let '(σ', r) := redis_Get c k σ in ((σ', log ++ [CmdGet k]), r);
     redis_Set := fun k v d '(σ, log) =>
       let '(σ', e) := redis_Set c k v d σ in
       ((σ', log ++ [CmdSet k v d]), e);
     redis_Del := fun ks '(σ, log) =>
       let '(σ', e) := redis_Del c ks σ in ((σ', log ++ [CmdDel ks]), e);
     redis_Keys := fun p '(σ, log) =>
       let '(σ', r) := redis_Keys c p σ in ((σ', log ++ [CmdKeys p]), r) |}.

(** The commands an operation [op] on the logged client sends when
    started in state [σ]. *)
Definition commands_of {Σ A}
    (op : Σ * list command -> (Σ * list command) * A) (σ : Σ)
  : list command :=
  snd (fst (op (σ, []))).

End RedisCache.

(** ** kafka.go: events *)

Module Events.

(** [Event]; [Data] is the raw JSON of the payload. *)
Record Event := mkEvent {
  Event_Type : string;
  Timestamp : Time;
  Data : string;
}.

Definition EventUserCreated := "user.created".
Definition EventUserUpdated := "user.updated".
Definition EventUserDeleted := "user.deleted".
Definition EventCredentialAdded := "credential.added".
Definition EventMFAMethodAdded := "mfa.added".

(** [sarama.ProducerMessage] and [sarama.ConsumerMessage], with the
    fields the code reads or writes. *)
Record ProducerMessage := mkProducerMessage {
  Producer_Topic : string;
  Producer_Value : string;
}.

Record ConsumerMessage := mkConsumerMessage {
  Topic : string;
  Offset : Z;
  Value : string;
}.

Section Producer.

(** The state of the broker connection and [SendMessage] on it. *)
Context {P : Type}.
Variable SendMessage : ProducerMessage -> P -> P * option error.
Variable json_Marshal : Event -> string * option error.

(** [PublishEvent]; [fmt.Errorf] with %w prefixes the cause. *)
Definition PublishEvent (topic : string) (event : Event) (p : P)
  : P * option error :=
  let '(data, err) := json_Marshal event in
  match err with
  | Some e => (p, Some ("failed to marshal event: " +:+ e))
  | None =>
      let msg := {| Producer_Topic := topic; Producer_Value := data |} in
      let '(p1, err) := SendMessage msg p in
      match err with
      | Some e => (p1, Some ("failed to send message: " +:+ e))
      | None => (p1, None)
      end
  end.

End Producer.

Section Consumer.

(** What the handlers act on. *)
Context {W : Type}.
Variable json_Unmarshal : string -> Event * option error.

(** [EventHandler] *)
Record EventHandler := mkEventHandler {
  HandleEvent : Event -> W -> W * option error;
}.

(** [RegisterHandler] on the [handlers] map of the consumer. *)
Definition RegisterHandler (eventType : string) (handler : EventHandler)
    (handlers : gmap string EventHandler) : gmap string EventHandler :=
  <[eventType := handler]> handlers.

(** [ConsumeClaim] over the messages the claim delivers before its
    channel is closed.  [marked] collects the messages given to
    [session.MarkMessage]. *)
Fixpoint ConsumeClaim (handlers : gmap string EventHandler)
    (messages : list ConsumerMessage) (w : W) (marked : list ConsumerMessage)
  : (W * list ConsumerMessage) * option error :=
  match messages with
  | [] => ((w, marked), None)
  | msg :: rest =>
      let '(event, err) := json_Unmarshal (Value msg) in
      match err with
      | Some _ => ConsumeClaim handlers rest w marked
      | None =>
          match handlers !! Event_Type event with
          | None => ConsumeClaim handlers rest w marked
          | Some handler =>
              let '(w1, err) := HandleEvent handler event w in
              match err with
              | Some _ => ConsumeClaim handlers rest w1 marked
              | None => ConsumeClaim handlers rest w1 (marked ++ [msg])
              end
          end
      end
  end.

(** A message is deliverable when it decodes and a handler is registered
    for its event type. *)
Definition deliverable (handlers : gmap string EventHandler)
    (msg : ConsumerMessage) : Prop :=
  exists event handler,
    json_Unmarshal (Value msg) = (event, None)
    /\ handlers !! Event_Type event = Some handler.

End Consumer.

Arguments EventHandler W : clear implicits.

End Events.

(** ** More sample data *)

Module Fixtures.

(** Redis in memory, for keys that have not expired.  [KEYS] is given for
    patterns without glob characters, which match the key of that name
    and no other. *)
Definition has_glob (pattern : string) : bool :=
  existsb (fun a => Ascii.eqb a "*" || Ascii.eqb a "?" || Ascii.eqb a "["
                    || Ascii.eqb a "\")%char
    (String.list_ascii_of_string pattern).

Definition MemRedis : RedisCache.Client (gmap string string) :=
  {| RedisCache.redis_Get := fun k σ =>
       match σ !! k with
       | Some v => (σ, (v, None))
       | None => (σ, ("", Some RedisCache.redis_Nil))
       end;
     RedisCache.redis_Set := fun k v _ σ => (<[k := v]> σ, None);
     RedisCache.redis_Del := fun ks σ =>
       (foldr (fun k m => delete k m) σ ks, None);
     RedisCache.redis_Keys := fun p σ =>
       if has_glob p
       then (σ, ([], Some (RedisCache.redis_failure "pattern not supported")))
       else (σ, (if decide (is_Some (σ !! p)) then [p] else [], None)) |}.

(** A Redis whose [KEYS] fails once something has been deleted; the state
    counts the deletions. *)
Definition FlakyRedis : RedisCache.Client nat :=
  {| RedisCache.redis_Get := fun _ n => (n, ("", Some RedisCache.redis_Nil));
     RedisCache.redis_Set := fun _ _ _ n => (n, None);
     RedisCache.redis_Del := fun _ n => (S n, None);
     RedisCache.redis_Keys := fun p n =>
       match n with
       | O => (n, ([p], None))
       | S _ => (n, ([], Some (RedisCache.redis_failure "connection reset")))
       end |}.

(** A codec that knows one user. *)
Definition alice_text := "id=u1;email=a@example.com".
Definition json_alice : RedisCache.Codec User :=
  {| RedisCache.Marshal := fun u =>
       ("id=" +:+ User_ID u +:+ ";email=" +:+ User_Email u, None);
     RedisCache.Unmarshal := fun data =>
       if String.eqb data alice_text
       then (Samples.alice, None)
       else (mkUser "" "" 0 0, Some "invalid character") |}.

(** Event handlers that record the type of what they handle; the second
    one fails after recording. *)
Definition recorder : Events.EventHandler (list string) :=
  @Events.mkEventHandler (list string)
    (fun event w => (w ++ [Events.Event_Type event], None)).
Definition failing : Events.EventHandler (list string) :=
  @Events.mkEventHandler (list string)
    (fun event w => (w ++ [Events.Event_Type event], Some "handler failed")).

(** A decoder that takes the value of a message for the event type, and
    rejects one text. *)
Definition decode_event (value : string) : Events.Event * option error :=
  if String.eqb value "not json"
  then (Events.mkEvent "" 0 "", Some "invalid character")
  else (Events.mkEvent value 0 "{}", None).

Definition registry : gmap string (Events.EventHandler (list string)) :=
  Events.RegisterHandler Events.EventUserDeleted failing
    (Events.RegisterHandler Events.EventUserCreated recorder ∅).

Definition created : Events.ConsumerMessage :=
  Events.mkConsumerMessage "users" 1 "user.created".
Definition deleted : Events.ConsumerMessage :=
  Events.mkConsumerMessage "users" 2 "user.deleted".
Definition garbage : Events.ConsumerMessage :=
  Events.mkConsumerMessage "users" 3 "not json".
Definition unknown : Events.ConsumerMessage :=
  Events.mkConsumerMessage "users" 4 "user.renamed".

Definition key_1 :=
  mkCredential "c1" "u1" [1; 2] "none" 0.
Definition key_2 :=
  mkCredential "c2" "u1" [3; 4] "packed" 0.

End Fixtures.

(** A result pair holds exactly one of a value and an error. *)
Definition exactly_one {A B : Type} (r : option A * option B) : Prop :=
  match r with
  | (Some _, None) | (None, Some _) => True
  | _ => False
  end.

(** A message counts as handled when it decodes, a handler is registered
    for its event type, and that handler returned nil for it in some
    state. *)
Definition handled {W : Type} (json_Unmarshal : string -> Events.Event * option error)
    (handlers : gmap string (Events.EventHandler W))
    (msg : Events.ConsumerMessage) : Prop :=
  exists event handler w0 w1,
    json_Unmarshal (Events.Value msg) = (event, None)
    /\ handlers !! Events.Event_Type event = Some handler
    /\ Events.HandleEvent handler event w0 = (w1, None).

(** Whether a reply carries a response. *)
Definition reply_has_response (r : Auth.reply) : bool :=
  match r with
  | Auth.ReplyAuthenticate r => bool_decide (is_Some (fst r))
  | Auth.ReplyValidateToken r => bool_decide (is_Some (fst r))
  | Auth.ReplyRegisterPasskey r => bool_decide (is_Some (fst r))
  | Auth.ReplyVerifyPasskey r => bool_decide (is_Some (fst r))
  | Auth.ReplyAddMFAMethod r => bool_decide (is_Some (fst r))
  | Auth.ReplyVerifyMFAMethod r => bool_decide (is_Some (fst r))
  | Auth.ReplyRemoveMFAMethod r => bool_decide (is_Some (fst r))
  | Auth.ReplyGetMFAMethods r => bool_decide (is_Some (fst r))
  end.

(** A broker connection that keeps what it is sent. *)
Definition keep_sent (msg : Events.ProducerMessage)
    (sent : list Events.ProducerMessage)
  : list Events.ProducerMessage * option error :=
  (sent ++ [msg], None).

(** The message a consumer of the topic receives for a produced one. *)
Definition delivered_as (offset : Z) (msg : Events.ProducerMessage)
  : Events.ConsumerMessage :=
  Events.mkConsumerMessage (Events.Producer_Topic msg) offset
    (Events.Producer_Value msg).

(** ** Properties of the storage operations *)

Section StorageFacts.

Context {Σ : Type}.
Variable s : NoSQLStorage Σ.

Lemma traced_Get t k (σ σ1 : Σ) log r :
  Get (client s) t k σ = (σ1, r) ->
  Get (client (traced_storage s)) t k (σ, log)
  = ((σ1, log ++ [CGet t k]), r).
Proof. intros E. simpl. rewrite E. reflexivity. Qed.

Lemma traced_Delete t k (σ σ1 : Σ) log e :
  Delete (client s) t k σ = (σ1, e) ->
  Delete (client (traced_storage s)) t k (σ, log)
  = ((σ1, log ++ [CDelete t k]), e).
Proof. intros E. simpl. rewrite E. reflexivity. Qed.

Lemma traced_Put t k v (σ σ1 : Σ) log e :
  Put (client s) t k v σ = (σ1, e) ->
  Put (client (traced_storage s)) t k v (σ, log)
  = ((σ1, log ++ [CPut t k v]), e).
Proof. intros E. simpl. rewrite E. reflexivity. Qed.

(** [CreateUser] looks at the error of [Get] and at nothing else. *)
Lemma CreateUser_exists user (σ σ1 : Σ) result :
  Get (client s) (tableName s) (User_ID user) σ = (σ1, (result, None)) ->
  CreateUser s user σ
  = (σ1, Some (mkStorageError ErrAlreadyExists "User already exists" None)).
Proof. intros E. unfold CreateUser. rewrite E. reflexivity. Qed.

Lemma CreateUser_missing user (σ σ1 : Σ) result e :
  Get (client s) (tableName s) (User_ID user) σ = (σ1, (result, Some e)) ->
  CreateUser s user σ
  = let '(σ2, err) :=
      Put (client s) (tableName s) (User_ID user) (DUser user) σ1 in
    (σ2, match err with
         | Some e' =>
             Some (mkStorageError ErrInternal "Failed to create user"
                     (Some e'))
         | None => None
         end).
Proof.
  intros E. unfold CreateUser. rewrite E.
  destruct (Put _ _ _ _ _) as [σ2 [e'|]]; reflexivity.
Qed.

Lemma GetUser_nil_result dec id (σ σ1 : Σ) :
  Get (client s) (tableName s) id σ = (σ1, (None, None)) ->
  GetUser dec s id σ
  = (σ1, (None, Some (mkStorageError ErrNotFound "User not found" None))).
Proof. intros E. unfold GetUser. rewrite E. reflexivity. Qed.

(** The four ways [GetTemporaryValue] ends once [Get] has answered. *)
Lemma GetTemporaryValue_missing now key (σ σ1 : Σ) :
  Get (client s) (tableName s) (temp_key key) σ = (σ1, (None, None)) ->
  GetTemporaryValue s now key σ
  = (σ1, ("", Some (mkStorageError ErrNotFound "Temporary value not found"
                      None))).
Proof. intros E. unfold GetTemporaryValue. rewrite E. reflexivity. Qed.

Lemma GetTemporaryValue_expired now key (σ σ1 : Σ) m f :
  Get (client s) (tableName s) (temp_key key) σ = (σ1, (Some m, None)) ->
  m !! "expires_at" = Some (AFloat64 f) ->
  Unix now > int64_of_float64 f ->
  GetTemporaryValue s now key σ
  = (fst (Delete (client s) (tableName s) (temp_key key) σ1),
     ("", Some (mkStorageError ErrNotFound "Temporary value expired" None))).
Proof.
  intros E Hexp Hgt. unfold GetTemporaryValue. rewrite E, Hexp. simpl.
  destruct (Z.gtb_spec (Unix now) (int64_of_float64 f)) as [_|Hle];
    [|lia].
  destruct (Delete _ _ _ _) as [σ2 e]. reflexivity.
Qed.

Lemma GetTemporaryValue_live now key (σ σ1 : Σ) m f v :
  Get (client s) (tableName s) (temp_key key) σ = (σ1, (Some m, None)) ->
  m !! "expires_at" = Some (AFloat64 f) ->
  m !! "value" = Some (AString v) ->
  Unix now <= int64_of_float64 f ->
  GetTemporaryValue s now key σ = (σ1, (v, None)).
Proof.
  intros E Hexp Hval Hle. unfold GetTemporaryValue.
  rewrite E, Hexp, Hval. simpl.
  destruct (Z.gtb_spec (Unix now) (int64_of_float64 f)) as [Hgt|_];
    [lia|reflexivity].
Qed.

(** A value comes back only from an item that has not expired. *)
Lemma GetTemporaryValue_value_inv now key (σ σ' : Σ) v :
  GetTemporaryValue s now key σ = (σ', (v, None)) ->
  exists m f,
    Get (client s) (tableName s) (temp_key key) σ = (σ', (Some m, None))
    /\ m !! "expires_at" = Some (AFloat64 f)
    /\ m !! "value" = Some (AString v)
    /\ Unix now <= int64_of_float64 f.
Proof.
  unfold GetTemporaryValue.
  destruct (Get _ _ _ _) as [σ1 [[m|] [e|]]]; try discriminate.
  destruct (m !! "expires_at") as [[]|] eqn:Hexp; simpl; try discriminate.
  destruct (Z.gtb_spec (Unix now) (int64_of_float64 f)) as [Hgt|Hle].
  { destruct (Delete _ _ _ _); discriminate. }
  destruct (m !! "value") as [[]|] eqn:Hval; simpl; try discriminate.
  intros [= <- <-]. exists m, f. repeat split; auto; lia.
Qed.

End StorageFacts.

(** ** The operations on the in-memory client *)

Section MemFacts.

Variable strict : bool.
Variable table : string.

Lemma Mem_CreateUser_taken (user : User) (σ : Mem.state) (d : document) :
  σ !! (table, User_ID user) = Some d ->
  CreateUser (Mem.storage strict table) user σ
  = (σ, Some (mkStorageError ErrAlreadyExists "User already exists" None)).
Proof.
  intros Hd. apply CreateUser_exists with (result := Some (Mem.to_item d)).
  simpl. rewrite Hd. reflexivity.
Qed.

Lemma Mem_CreateUser_state (user : User) (σ : Mem.state) :
  fst (CreateUser (Mem.storage strict table) user σ) = σ
  \/ (σ !! (table, User_ID user) = None
      /\ fst (CreateUser (Mem.storage strict table) user σ)
         = <[(table, User_ID user) := DUser user]> σ).
Proof.
  unfold CreateUser. simpl.
  destruct (σ !! (table, User_ID user)) eqn:Hk; [left; reflexivity|].
  destruct strict; simpl; [right; split; reflexivity | left; reflexivity].
Qed.

Lemma Mem_StoreCredential_state (credential : Credential) (σ : Mem.state) :
  fst (StoreCredential (Mem.storage strict table) credential σ)
  = <[(table, Credential_ID credential) := DCredential credential]> σ.
Proof. reflexivity. Qed.

Lemma Mem_StoreTemporaryValue_state (now : Time) (key value : string)
    (expiry : Duration) (σ : Mem.state) :
  exists m,
    fst (StoreTemporaryValue (Mem.storage strict table) now key value
           expiry σ)
    = <[(table, temp_key key) := DMap m]> σ.
Proof. eexists. reflexivity. Qed.

Lemma Mem_GetTemporaryValue_state (now : Time) (key : string)
    (σ : Mem.state) :
  fst (GetTemporaryValue (Mem.storage strict table) now key σ) = σ
  \/ fst (GetTemporaryValue (Mem.storage strict table) now key σ)
     = delete (table, temp_key key) σ.
Proof.
  unfold GetTemporaryValue. simpl.
  destruct (σ !! (table, temp_key key)) as [d|].
  - destruct (assert_float64 (Mem.to_item d !! "expires_at")) as [f [|]];
      simpl; [|left; reflexivity].
    destruct (Unix now >? int64_of_float64 f); [right; reflexivity|].
    destruct (assert_string (Mem.to_item d !! "value")) as [v [|]];
      left; reflexivity.
  - destruct strict; left; reflexivity.
Qed.

(** The reads leave the table as it is. *)
Lemma Mem_GetUser_state (dec : item -> User * option error) (id : string)
    (σ : Mem.state) :
  fst (GetUser dec (Mem.storage strict table) id σ) = σ.
Proof.
  unfold GetUser. simpl. destruct (σ !! (table, id)) as [d|].
  - destruct (dec (Mem.to_item d)) as [u [e|]]; reflexivity.
  - destruct strict; reflexivity.
Qed.

Lemma Mem_GetUserByEmail_state (dec : item -> User * option error)
    (email : string) (σ : Mem.state) :
  fst (GetUserByEmail dec (Mem.storage strict table) email σ) = σ.
Proof.
  unfold GetUserByEmail. simpl.
  destruct (filter _ _) as [|m ms]; [reflexivity|].
  destruct (dec m) as [u [e|]]; reflexivity.
Qed.

Lemma keyed_by_id_insert_user (σ : Mem.state) (user : User) :
  keyed_by_id σ ->
  keyed_by_id (<[(table, User_ID user) := DUser user]> σ).
Proof.
  intros Hσ t k u. rewrite lookup_insert. case_decide as Heq.
  - intros [= <-]. congruence.
  - apply Hσ.
Qed.

Lemma keyed_by_id_insert_other (σ : Mem.state) (tk : string * string)
    (d : document) :
  (forall u, d <> DUser u) ->
  keyed_by_id σ -> keyed_by_id (<[tk := d]> σ).
Proof.
  intros Hd Hσ t k u. rewrite lookup_insert. case_decide as Heq.
  - intros [= ->]. exfalso. eapply Hd. reflexivity.
  - apply Hσ.
Qed.

Lemma keyed_by_id_delete (σ : Mem.state) (tk : string * string) :
  keyed_by_id σ -> keyed_by_id (delete tk σ).
Proof.
  intros Hσ t k u. rewrite lookup_delete. case_decide; [discriminate|].
  apply Hσ.
Qed.

Lemma reachable_keyed_by_id (σ : Mem.state) :
  reachable strict table σ -> keyed_by_id σ.
Proof.
  induction 1 as [|σ user _ IH|σ credential _ IH|σ now key value expiry _ IH
                 |σ now key _ IH].
  - intros t k u. rewrite lookup_empty. discriminate.
  - destruct (Mem_CreateUser_state user σ) as [->|[_ ->]]; [exact IH|].
    apply keyed_by_id_insert_user, IH.
  - rewrite Mem_StoreCredential_state.
    apply keyed_by_id_insert_other; [discriminate|exact IH].
  - destruct (Mem_StoreTemporaryValue_state now key value expiry σ)
      as [m ->].
    apply keyed_by_id_insert_other; [discriminate|exact IH].
  - destruct (Mem_GetTemporaryValue_state now key σ) as [->| ->];
      [exact IH|apply keyed_by_id_delete, IH].
Qed.

Lemma keyed_by_id_unique (σ : Mem.state) :
  keyed_by_id σ -> id_unique table σ.
Proof.
  intros Hσ k1 k2 u1 u2 H1 H2 Hid.
  apply Hσ in H1, H2. congruence.
Qed.

End MemFacts.

(** ** Sample runs of the storage operations *)

Example with_challenge_item :
  fst (snd (Get (client Samples.strict_users) "users" (temp_key "reg:u1")
              Samples.with_challenge))
  = Some {[ "value" := AString "c2VjcmV0";
            "expires_at" := AFloat64 (float64_of_int64 1700000300) ]}.
Proof. reflexivity. Qed.

Example expires_at_round_trip :
  int64_of_float64 (float64_of_int64 1700000300) = 1700000300.
Proof. reflexivity. Qed.

Example get_before_expiry :
  snd (GetTemporaryValue Samples.strict_users (Samples.t0 + 10 * Second)
         "reg:u1" Samples.with_challenge)
  = ("c2VjcmV0", None).
Proof. reflexivity. Qed.

Example get_in_next_second :
  GetTemporaryValue Samples.strict_users (Samples.at_expiry + 1) "reg:u1"
    Samples.with_challenge
  = (∅, ("", Some (mkStorageError ErrNotFound "Temporary value expired"
                     None))).
Proof. reflexivity. Qed.

(** A client that hands the stored int64 back as it is makes the type
    assertion on "expires_at" fail. *)
Example int64_is_not_float64 :
  assert_float64 (Some (AInt64 1700000300)) = (S754_zero false, false).
Proof. reflexivity. Qed.

(** On a client that reports a missing key as an error, a get on a key
    that was never stored is an internal error. *)
Example get_missing_on_strict_client :
  snd (GetTemporaryValue Samples.strict_users Samples.t0 "reg:u1" ∅)
  = ("", Some (mkStorageError ErrInternal "Failed to get temporary value"
                 (Some "item not found"))).
Proof. reflexivity. Qed.

(** On a client that reports a missing key as a nil map, [CreateUser]
    creates nothing. *)
Example CreateUser_on_lenient_client :
  CreateUser Samples.lenient_users Samples.alice ∅
  = (∅, Some (mkStorageError ErrAlreadyExists "User already exists" None)).
Proof. reflexivity. Qed.

(** ** Temporary values *)

Section TemporaryValues.

Context {Σ : Type}.
Variable s : NoSQLStorage Σ.


(** C9.  The expiry test is strict: when the clock's Unix time equals the
    item's expires_at, [GetTemporaryValue] returns the stored value, with
    no error and without deleting anything. *)
Theorem GetTemporaryValue_at_expiry_instant
    (now : Time) (key : string) (σ σ1 : Σ) (m : item) (f : float64)
    (v : string) :
  Get (client s) (tableName s) (temp_key key) σ = (σ1, (Some m, None)) ->
  m !! "expires_at" = Some (AFloat64 f) ->
  m !! "value" = Some (AString v) ->
  Unix now = int64_of_float64 f ->
  GetTemporaryValue s now key σ = (σ1, (v, None))
  /\ calls_of (GetTemporaryValue (traced_storage s) now key) σ
     = [CGet (tableName s) (temp_key key)].
Proof.
  intros HGet Hexp Hval Hnow. split.
  - apply GetTemporaryValue_live with (m := m) (f := f); auto. lia.
  - unfold calls_of.
    rewrite (GetTemporaryValue_live (traced_storage s) now key (σ, [])
               (σ1, [CGet (tableName s) (temp_key key)]) m f v); auto.
    + apply (traced_Get s _ _ σ σ1 [] _ HGet).
    + lia.
Qed.

End TemporaryValues.


(** C9 at work: the same challenge, read in the last nanosecond of the
    second of its expiry. *)
Lemma GetTemporaryValue_at_expiry_instant_witness :
  let s := Samples.strict_users in
  let key := "reg:u1" in
  let now := Samples.at_expiry in
  let σ := Samples.with_challenge in
  let f := float64_of_int64 1700000300 in
  (Get (client s) (tableName s) (temp_key key) σ
   = (σ, (Some Samples.challenge_item, None))
   /\ Samples.challenge_item !! "expires_at" = Some (AFloat64 f)
   /\ Samples.challenge_item !! "value" = Some (AString "c2VjcmV0")
   /\ Unix now = int64_of_float64 f)
  /\ (GetTemporaryValue s now key σ = (σ, ("c2VjcmV0", None))
      /\ calls_of (GetTemporaryValue (traced_storage s) now key) σ
         = [CGet (tableName s) (temp_key key)]).
Proof.
  intros s key now σ f.
  assert (H1 : Get (client s) (tableName s) (temp_key key) σ
               = (σ, (Some Samples.challenge_item, None)))
    by reflexivity.
  assert (H2 : Samples.challenge_item !! "expires_at" = Some (AFloat64 f))
    by reflexivity.
  assert (H3 : Samples.challenge_item !! "value" = Some (AString "c2VjcmV0"))
    by reflexivity.
  assert (H4 : Unix now = int64_of_float64 f) by (vm_compute; reflexivity).
  split; [auto|].
  exact (GetTemporaryValue_at_expiry_instant s now key σ σ
           Samples.challenge_item f "c2VjcmV0" H1 H2 H3 H4).
Defined.

(** ** Users *)

Section Users.

Context {Σ : Type}.
Variable s : NoSQLStorage Σ.

(** C10.  [CreateUser] decides that the user exists from the error of
    [Get] alone.  When [Get] returns a nil error, [CreateUser] returns
    ALREADY_EXISTS and its only call on the client is that [Get] (no
    [Put]), whatever map came back; when the map is nil, [GetUser] on the
    same key reports NOT_FOUND. *)
Theorem CreateUser_trusts_Get_error
    (dec : item -> User * option error) (user : User) (σ σ1 : Σ)
    (result : option item) :
  Get (client s) (tableName s) (User_ID user) σ = (σ1, (result, None)) ->
  CreateUser s user σ
  = (σ1, Some (mkStorageError ErrAlreadyExists "User already exists" None))
  /\ calls_of (CreateUser (traced_storage s) user) σ
     = [CGet (tableName s) (User_ID user)]
  /\ (result = None ->
      GetUser dec s (User_ID user) σ
      = (σ1, (None, Some (mkStorageError ErrNotFound "User not found"
                            None)))).
Proof.
  intros HGet. split; [|split].
  - apply CreateUser_exists with (result := result). exact HGet.
  - unfold calls_of.
    rewrite (CreateUser_exists (traced_storage s) user (σ, [])
               (σ1, [CGet (tableName s) (User_ID user)]) result);
      [reflexivity|].
    apply (traced_Get s _ _ σ σ1 [] _ HGet).
  - intros ->. apply GetUser_nil_result. exact HGet.
Qed.

End Users.

(** C10 at work: the empty table behind a client that reports a missing
    key as a nil map with a nil error. *)
Lemma CreateUser_trusts_Get_error_witness :
  let s := Samples.lenient_users in
  Get (client s) (tableName s) (User_ID Samples.alice) ∅ = (∅, (None, None))
  /\ (CreateUser s Samples.alice ∅
      = (∅, Some (mkStorageError ErrAlreadyExists "User already exists"
                    None))
      /\ calls_of (CreateUser (traced_storage s) Samples.alice) ∅
         = [CGet (tableName s) (User_ID Samples.alice)]
      /\ (@None item = None ->
          GetUser Mem.decode_User s (User_ID Samples.alice) ∅
          = (∅, (None, Some (mkStorageError ErrNotFound "User not found"
                               None))))).
Proof.
  intros s.
  assert (H : Get (client s) (tableName s) (User_ID Samples.alice) ∅
              = (∅, (None, None)))
    by reflexivity.
  split; [exact H|].
  exact (CreateUser_trusts_Get_error s Mem.decode_User Samples.alice ∅ ∅
           None H).
Defined.

(** C8, as the code has it.  In every state the implemented operations
    reach on the in-memory client, no two user records carry the same id,
    and [CreateUser] refuses a user exactly on the ground that its id is
    taken: a taken id gives ALREADY_EXISTS and leaves the table as it is,
    a free id on a client that reports missing keys as errors stores the
    user as given.  The email takes no part in the decision. *)
Theorem CreateUser_guards_ids
    (strict : bool) (table : string) (σ : Mem.state) :
  reachable strict table σ ->
  id_unique table σ
  /\ (forall (user : User) (d : document),
        σ !! (table, User_ID user) = Some d ->
        CreateUser (Mem.storage strict table) user σ
        = (σ, Some (mkStorageError ErrAlreadyExists "User already exists"
                      None)))
  /\ (forall user : User,
        strict = true ->
        σ !! (table, User_ID user) = None ->
        CreateUser (Mem.storage strict table) user σ
        = (<[(table, User_ID user) := DUser user]> σ, None)).
Proof.
  intros Hreach. split; [|split].
  - apply keyed_by_id_unique. eapply reachable_keyed_by_id. exact Hreach.
  - intros user d Hd. apply Mem_CreateUser_taken with (d := d). exact Hd.
  - intros user -> Hfree. unfold CreateUser. simpl. rewrite Hfree.
    reflexivity.
Qed.

(** C8 at work: the table after one registration. *)
Lemma CreateUser_guards_ids_witness :
  reachable true "users" Samples.after_alice
  /\ (id_unique "users" Samples.after_alice
      /\ (forall (user : User) (d : document),
            Samples.after_alice !! ("users", User_ID user) = Some d ->
            CreateUser (Mem.storage true "users") user Samples.after_alice
            = (Samples.after_alice,
               Some (mkStorageError ErrAlreadyExists "User already exists"
                       None)))
      /\ (forall user : User,
            true = true ->
            Samples.after_alice !! ("users", User_ID user) = None ->
            CreateUser (Mem.storage true "users") user Samples.after_alice
            = (<[("users", User_ID user) := DUser user]> Samples.after_alice,
               None))).
Proof.
  assert (H : reachable true "users" Samples.after_alice)
    by (apply reach_CreateUser, reach_empty).
  split; [exact H|].
  exact (CreateUser_guards_ids true "users" Samples.after_alice H).
Defined.

(** C8, counterexample.  On a client that reports a missing key as an
    error, two users with different ids and one email are both created:
    the reached state holds two user records with the same email, and
    [GetUserByEmail] answers with the first of the two matches. *)
Lemma CreateUser_admits_duplicate_email :
  snd (CreateUser Samples.strict_users Samples.alice ∅) = None
  /\ snd (CreateUser Samples.strict_users Samples.alias Samples.after_alice)
     = None
  /\ reachable true "users" Samples.after_alias
  /\ Samples.after_alias !! ("users", "u1") = Some (DUser Samples.alice)
  /\ Samples.after_alias !! ("users", "u2") = Some (DUser Samples.alias)
  /\ User_Email Samples.alice = User_Email Samples.alias
  /\ length (fst (snd (Query (client Samples.strict_users) "users"
                         "email-index" "email = :email"
                         {[ ":email" := AString "a@example.com" ]}
                         Samples.after_alias))) = 2%nat
  /\ ~ email_unique "users" Samples.after_alias.
Proof.
  assert (H1 : Samples.after_alias !! ("users", "u1")
               = Some (DUser Samples.alice)) by reflexivity.
  assert (H2 : Samples.after_alias !! ("users", "u2")
               = Some (DUser Samples.alias)) by reflexivity.
  split; [reflexivity|].
  split; [reflexivity|].
  split; [apply reach_CreateUser, reach_CreateUser, reach_empty|].
  split; [exact H1|]. split; [exact H2|]. split; [reflexivity|].
  split; [reflexivity|].
  intros Huniq. specialize (Huniq "u1" "u2" _ _ H1 H2 eq_refl).
  discriminate Huniq.
Qed.

(** ** The RPC handlers *)

Lemma Unix_Add_day (now : Time) : Unix (Add now (24 * Hour)) = Unix now + 86400.
Proof.
  unfold Unix, Add, Hour, Second.
  replace (now + 24 * (3600 * 1000000000))
    with (now + 86400 * 1000000000) by lia.
  apply Z.div_add. lia.
Qed.

Lemma serve_app (xs ys : list (Time * Auth.rpc)) :
  Auth.serve (xs ++ ys) = Auth.serve xs ++ Auth.serve ys.
Proof. unfold Auth.serve. apply map_app. Qed.

Lemma serve_last (before : list (Time * Auth.rpc)) (now : Time)
    (c : Auth.rpc) :
  last (Auth.serve (before ++ [(now, c)])) = Some (Auth.handle now c).
Proof. rewrite serve_app. simpl. apply last_snoc. Qed.

Lemma eqb_empty_false (x : string) : x <> "" -> String.eqb x "" = false.
Proof. intros H. apply String.eqb_neq. exact H. Qed.

(** C1, as the code has it.  [VerifyPasskey] keeps no ceremony state and
    consumes nothing: after any calls whatever, a request with a user id
    and a credential is answered with success and no error, a replay of a
    response that was accepted before included. *)
Theorem VerifyPasskey_accepts_after_any_calls
    (before : list (Time * Auth.rpc)) (now : Time)
    (r : Auth.VerifyPasskeyRequest) (credential : Auth.PasskeyCredential) :
  Auth.Verify_UserId r <> "" ->
  Auth.Verify_Credential r = Some credential ->
  last (Auth.serve (before ++ [(now, Auth.CallVerifyPasskey (Some r))]))
  = Some (Auth.ReplyVerifyPasskey
            (Some (Auth.mkVerifyPasskeyResponse true), None)).
Proof.
  intros Hid Hcred. rewrite serve_last. simpl. unfold Auth.VerifyPasskey.
  rewrite (eqb_empty_false _ Hid), Hcred. reflexivity.
Qed.

(** C1 at work: the request is accepted a second time, one second after
    it was accepted first. *)
Lemma VerifyPasskey_accepts_after_any_calls_witness :
  let accepted := (Samples.t0, Auth.CallVerifyPasskey (Some Samples.verify_u1)) in
  (Auth.Verify_UserId Samples.verify_u1 <> ""
   /\ Auth.Verify_Credential Samples.verify_u1 = Some Samples.response)
  /\ last (Auth.serve ([accepted]
                       ++ [(Samples.t0 + Second,
                            Auth.CallVerifyPasskey (Some Samples.verify_u1))]))
     = Some (Auth.ReplyVerifyPasskey
               (Some (Auth.mkVerifyPasskeyResponse true), None)).
Proof.
  intros accepted.
  assert (H1 : Auth.Verify_UserId Samples.verify_u1 <> "") by discriminate.
  assert (H2 : Auth.Verify_Credential Samples.verify_u1
               = Some Samples.response) by reflexivity.
  split; [auto|].
  exact (VerifyPasskey_accepts_after_any_calls [accepted]
           (Samples.t0 + Second) Samples.verify_u1 Samples.response H1 H2).
Defined.

(** C1, counterexample.  A registration is begun, its response is
    verified, and the same request is sent again: the second
    [VerifyPasskey] succeeds as the first did, where the claim has it fail
    with NotFound. *)
Lemma VerifyPasskey_replay_succeeds :
  Auth.serve
    [(Samples.t0, Auth.CallRegisterPasskey (Some Samples.register_u1));
     (Samples.t0 + Second, Auth.CallVerifyPasskey (Some Samples.verify_u1));
     (Samples.t0 + 2 * Second,
      Auth.CallVerifyPasskey (Some Samples.verify_u1))]
  = [Auth.handle Samples.t0
       (Auth.CallRegisterPasskey (Some Samples.register_u1));
     Auth.ReplyVerifyPasskey (Some (Auth.mkVerifyPasskeyResponse true), None);
     Auth.ReplyVerifyPasskey (Some (Auth.mkVerifyPasskeyResponse true), None)]
  /\ Auth.reply_code
       (Auth.handle (Samples.t0 + 2 * Second)
          (Auth.CallVerifyPasskey (Some Samples.verify_u1)))
     = Auth.OK.
Proof. split; reflexivity. Qed.

(** C3, as the code has it.  [ValidateToken] consults no session and no
    revocation record: after any calls whatever, a request with a
    non-empty token is answered valid, with the fixed user, whatever
    became of the session the token belongs to. *)
Theorem ValidateToken_accepts_after_any_calls
    (before : list (Time * Auth.rpc)) (now : Time)
    (r : Auth.ValidateTokenRequest) :
  Auth.Req_Token r <> "" ->
  last (Auth.serve (before ++ [(now, Auth.CallValidateToken (Some r))]))
  = Some (Auth.ReplyValidateToken
            (Some (Auth.mkValidateTokenResponse true
                     (Some (Auth.mkUser "dummy-user-id" "user@example.com"
                              None None))),
             None)).
Proof.
  intros Htok. rewrite serve_last. simpl. unfold Auth.ValidateToken.
  rewrite (eqb_empty_false _ Htok). reflexivity.
Qed.

(** C3 at work: the token of the sample session. *)
Lemma ValidateToken_accepts_after_any_calls_witness :
  Auth.Req_Token (Auth.mkValidateTokenRequest "token-of-s1") <> ""
  /\ last (Auth.serve
             ([] ++ [(Samples.t0,
                      Auth.CallValidateToken
                        (Some (Auth.mkValidateTokenRequest "token-of-s1")))]))
     = Some (Auth.ReplyValidateToken
               (Some (Auth.mkValidateTokenResponse true
                        (Some (Auth.mkUser "dummy-user-id" "user@example.com"
                                 None None))),
                None)).
Proof.
  assert (H : Auth.Req_Token (Auth.mkValidateTokenRequest "token-of-s1")
              <> "") by discriminate.
  split; [exact H|].
  exact (ValidateToken_accepts_after_any_calls [] Samples.t0
           (Auth.mkValidateTokenRequest "token-of-s1") H).
Defined.

(** C3, counterexample.  The session s1 is stored and then revoked, so
    that its record is gone; [ValidateToken] on the token of s1 still
    answers valid, one hour after the session was created as well as a
    week after it. *)
Lemma ValidateToken_valid_after_Revoke :
  Samples.one_session !! "s1"
  = Some (Sessions.mkSession "token-of-s1" "u1" 1700086400)
  /\ Samples.revoked !! "s1" = None
  /\ Auth.ValidateToken (Some (Auth.mkValidateTokenRequest "token-of-s1"))
     = (Some (Auth.mkValidateTokenResponse true
                (Some (Auth.mkUser "dummy-user-id" "user@example.com"
                         None None))),
        None)
  /\ Auth.handle (Samples.t0 + Hour)
       (Auth.CallValidateToken
          (Some (Auth.mkValidateTokenRequest "token-of-s1")))
     = Auth.handle (Samples.t0 + 168 * Hour)
         (Auth.CallValidateToken
            (Some (Auth.mkValidateTokenRequest "token-of-s1"))).
Proof. repeat split; reflexivity. Qed.

(** C4, as the code has it.  [RegisterPasskey] fails with InvalidArgument
    when the request is nil or its user id is empty, and looks no user
    up.  Every other request gets the same options: the challenge
    "dummy-challenge", which is 15 bytes long, for the relying party
    auth.polyid.io. *)
Theorem RegisterPasskey_outcome :
  Auth.RegisterPasskey None
  = (None, Some (Auth.mkStatus Auth.InvalidArgument "invalid request"))
  /\ (forall r : Auth.RegisterPasskeyRequest,
        Auth.Register_UserId r = "" ->
        Auth.RegisterPasskey (Some r)
        = (None, Some (Auth.mkStatus Auth.InvalidArgument "invalid request")))
  /\ (forall r : Auth.RegisterPasskeyRequest,
        Auth.Register_UserId r <> "" ->
        exists options : Auth.PasskeyOptions,
          Auth.RegisterPasskey (Some r)
          = (Some (Auth.mkRegisterPasskeyResponse (Some options)), None)
          /\ Auth.Challenge options = "dummy-challenge"
          /\ Auth.len (Auth.Challenge options) = 15
          /\ Auth.RpId options = "auth.polyid.io"
          /\ Auth.RpName options = "PolyID"
          /\ Auth.AllowedCredentials options = []).
Proof.
  split; [reflexivity|]. split.
  - intros r Hid. unfold Auth.RegisterPasskey. rewrite Hid. reflexivity.
  - intros r Hid. unfold Auth.RegisterPasskey.
    rewrite (eqb_empty_false _ Hid). eexists. repeat split.
Qed.

(** C4, counterexample.  The store knows no user u1, and
    [RegisterPasskey] for u1 succeeds all the same; the challenge it
    returns is 15 bytes long, one short of 16. *)
Lemma RegisterPasskey_short_challenge :
  snd (GetUser Mem.decode_User Samples.lenient_users "u1" ∅)
  = (None, Some (mkStorageError ErrNotFound "User not found" None))
  /\ Auth.RegisterPasskey (Some Samples.register_u1)
     = (Some (Auth.mkRegisterPasskeyResponse
                (Some (Auth.mkPasskeyOptions "dummy-challenge"
                         "auth.polyid.io" "PolyID" [] "" ""))),
        None)
  /\ Auth.len "dummy-challenge" = 15
  /\ (Auth.len "dummy-challenge" <? 16) = true.
Proof. repeat split; reflexivity. Qed.

(** C6, as the code has it.  [Authenticate] reads neither the email nor
    the password or passkey: any two requests at one clock reading get one
    and the same answer, and that answer is a success: the token
    "dummy-token", expiring 86400 seconds after the call, with a nil
    error. *)
Theorem Authenticate_ignores_credentials
    (now : Time) (r1 r2 : Auth.AuthenticateRequest) :
  Auth.Authenticate now (Some r1) = Auth.Authenticate now (Some r2)
  /\ Auth.Authenticate now (Some r1)
     = (Some (Auth.mkAuthenticateResponse "dummy-token" (Unix now + 86400)
                None false),
        None).
Proof.
  split; [reflexivity|]. unfold Auth.Authenticate.
  rewrite Unix_Add_day. reflexivity.
Qed.

(** C6, counterexample.  One request names an email no account has, the
    other a known email with a wrong password.  Both are answered with a
    token and a nil error: the status code is OK, not Unauthenticated. *)
Lemma Authenticate_accepts_unknown_and_wrong_password :
  existsb (fun a => String.eqb (fst a) (Auth.Req_Email Samples.unknown_email))
    Samples.accounts = false
  /\ existsb
       (fun a => String.eqb (fst a) (Auth.Req_Email Samples.wrong_password)
                 && negb (String.eqb (snd a) "battery"))
       Samples.accounts = true
  /\ Auth.Authenticate Samples.t0 (Some Samples.unknown_email)
     = (Some (Auth.mkAuthenticateResponse "dummy-token" 1700086400 None
                false),
        None)
  /\ Auth.Authenticate Samples.t0 (Some Samples.wrong_password)
     = (Some (Auth.mkAuthenticateResponse "dummy-token" 1700086400 None
                false),
        None)
  /\ Auth.reply_code
       (Auth.handle Samples.t0
          (Auth.CallAuthenticate (Some Samples.unknown_email)))
     = Auth.OK
  /\ Auth.reply_code
       (Auth.handle Samples.t0
          (Auth.CallAuthenticate (Some Samples.wrong_password)))
     = Auth.OK.
Proof. repeat split; reflexivity. Qed.

(** C7, as the code has it.  [GetMFAMethods] changes nothing: the
    replies to the calls before and after it are what they are without
    it.  Its result is a function of the request and of the clock: two
    calls with one request return the same result when they fall into the
    same Unix second. *)
Theorem GetMFAMethods_same_second
    (now1 now2 : Time) (req : option Auth.GetMFAMethodsRequest)
    (before after : list (Time * Auth.rpc)) :
  Unix now1 = Unix now2 ->
  Auth.GetMFAMethods now1 req = Auth.GetMFAMethods now2 req
  /\ Auth.serve (before ++ (now1, Auth.CallGetMFAMethods req) :: after)
     = Auth.serve before
       ++ Auth.ReplyGetMFAMethods (Auth.GetMFAMethods now1 req)
       :: Auth.serve after.
Proof.
  intros Hsec. split.
  - unfold Auth.GetMFAMethods. rewrite Hsec. reflexivity.
  - rewrite serve_app. reflexivity.
Qed.

(** C7 at work: two calls one nanosecond apart. *)
Lemma GetMFAMethods_same_second_witness :
  let req := Some Samples.methods_u1 in
  Unix Samples.t0 = Unix (Samples.t0 + 1)
  /\ (Auth.GetMFAMethods Samples.t0 req
      = Auth.GetMFAMethods (Samples.t0 + 1) req
      /\ Auth.serve ([] ++ (Samples.t0, Auth.CallGetMFAMethods req) :: [])
         = Auth.serve []
           ++ Auth.ReplyGetMFAMethods (Auth.GetMFAMethods Samples.t0 req)
           :: Auth.serve []).
Proof.
  intros req.
  assert (H : Unix Samples.t0 = Unix (Samples.t0 + 1))
    by (vm_compute; reflexivity).
  split; [exact H|].
  exact (GetMFAMethods_same_second Samples.t0 (Samples.t0 + 1) req [] [] H).
Defined.

(** C7, counterexample.  The same request, sent twice one second apart
    with nothing in between, gets two different results: the created_at
    of the method is the Unix time of each call. *)
Lemma GetMFAMethods_differs_across_seconds :
  Auth.serve
    [(Samples.t0, Auth.CallGetMFAMethods (Some Samples.methods_u1));
     (Samples.t0 + Second, Auth.CallGetMFAMethods (Some Samples.methods_u1))]
  = [Auth.ReplyGetMFAMethods
       (Some (Auth.mkGetMFAMethodsResponse
                [Auth.mkMFAMethod "dummy-method-id" "totp" 1700000000]),
        None);
     Auth.ReplyGetMFAMethods
       (Some (Auth.mkGetMFAMethodsResponse
                [Auth.mkMFAMethod "dummy-method-id" "totp" 1700000001]),
        None)]
  /\ Auth.GetMFAMethods Samples.t0 (Some Samples.methods_u1)
     <> Auth.GetMFAMethods (Samples.t0 + Second) (Some Samples.methods_u1).
Proof. split; [reflexivity|discriminate]. Qed.

(** ** The TOTP handlers *)

(** The RPC of the same name is no stricter: [VerifyMFAMethod] accepts
    any non-empty code. *)
Example VerifyMFAMethod_any_code :
  Auth.VerifyMFAMethod (Some (Auth.mkVerifyMFAMethodRequest "u1" "totp" "000000"))
  = (Some (Auth.mkVerifyMFAMethodResponse true), None).
Proof. reflexivity. Qed.

(** [SetupTOTP] takes the account name from [getUserIDFromContext], which
    returns the empty string; a generator that refuses an empty account
    name, as [totp.Generate] does, makes every call answer 500. *)
Lemma SetupTOTP_without_account_name
    (base32 : list Z -> string)
    (generate : MFA.GenerateOpts -> MFA.Key * option error)
    (random : list Z * option error) (c : MFA.GinContext) :
  (forall o, MFA.AccountName o = "" -> snd (generate o) <> None) ->
  MFA.SetupTOTP base32 generate random c
  = MFA.mkResponse MFA.StatusInternalServerError
      {[ "error" := AString "Failed to setup TOTP" ]}.
Proof.
  intros Hrefuse. unfold MFA.SetupTOTP.
  destruct random as [secret [e|]]; [reflexivity|].
  set (o := MFA.mkGenerateOpts _ _ _).
  pose proof (Hrefuse o eq_refl) as Herr.
  destruct (generate o) as [key [e|]]; [reflexivity|].
  now destruct Herr.
Qed.



(** ** Conversions between int64 and float64 *)

Lemma digits2_pos_size (p : positive) : digits2_pos p = Pos.size p.
Proof. induction p; simpl; congruence. Qed.

Lemma digits2_pos_bound (p : positive) :
  Zpos p < 2 ^ 53 -> Zpos (digits2_pos p) <= 53.
Proof.
  intros H. rewrite digits2_pos_size.
  pose proof (Pos.size_le p) as Hle.
  apply Pos2Z.pos_le_pos in Hle. rewrite Pos2Z.inj_pow in Hle.
  change (Z.pos p~0) with (2 * Z.pos p) in Hle.
  assert (Hlt : 2 ^ Z.pos (Pos.size p) < 2 ^ 54).
  { change (2 ^ 54) with (2 * 2 ^ 53). lia. }
  apply Z.pow_lt_mono_r_iff in Hlt; lia.
Qed.

Lemma digits2_pos_iter_xO (p k : positive) :
  digits2_pos (Pos.iter xO p k) = (digits2_pos p + k)%positive.
Proof.
  induction k using Pos.peano_ind.
  - simpl. lia.
  - rewrite Pos.iter_succ. simpl. rewrite IHk. lia.
Qed.

Lemma iter_xO_value (p k : positive) :
  Zpos (Pos.iter xO p k) = Zpos p * 2 ^ Zpos k.
Proof.
  change (Pos.iter xO p k) with (shift_pos k p).
  rewrite shift_pos_correct. rewrite Z.pow_pos_fold. lia.
Qed.

Lemma shr_fexp_canonical (m : positive) (e : Z) :
  Zpos (digits2_pos m) = 53 -> -1074 <= e ->
  shr_fexp 53 1024 (Zpos m) e loc_Exact
  = ({| shr_m := Zpos m; shr_r := false; shr_s := false |}, e).
Proof.
  intros Hd He. unfold shr_fexp. cbn [Zdigits2 shr_record_of_loc].
  replace (fexp 53 1024 (Z.pos (digits2_pos m) + e) - e) with 0
    by (unfold fexp, emin; lia).
  reflexivity.
Qed.

Lemma binary_round_aux_canonical (m : positive) (e : Z) :
  Zpos (digits2_pos m) = 53 -> -1074 <= e <= 971 ->
  binary_round_aux 53 1024 false (Zpos m) e loc_Exact = S754_finite false m e.
Proof.
  intros Hd He. unfold binary_round_aux.
  rewrite shr_fexp_canonical by (auto; lia).
  cbn [shr_m loc_of_shr_record round_nearest_even].
  rewrite shr_fexp_canonical by (auto; lia).
  cbn [shr_m].
  destruct (Z.leb_spec e (1024 - 53)); [reflexivity|lia].
Qed.

Lemma float64_of_pos (p : positive) :
  Zpos p < 2 ^ 53 ->
  exists m e, binary_round 53 1024 false p 0 = S754_finite false m e
    /\ -52 <= e <= 0 /\ Zpos m = Zpos p * 2 ^ (- e).
Proof.
  intros Hp. pose proof (digits2_pos_bound p Hp) as Hd.
  unfold binary_round.
  replace (fexp 53 1024 (Z.pos (digits2_pos p) + 0))
    with (Z.pos (digits2_pos p) - 53) by (unfold fexp, emin; lia).
  unfold shl_align.
  destruct (Z.pos (digits2_pos p) - 53 - 0) as [|k|k] eqn:Hk; [|lia|].
  - rewrite binary_round_aux_canonical by lia.
    exists p, 0. repeat split; lia.
  - rewrite binary_round_aux_canonical.
    + exists (Pos.iter xO p k), (Z.pos (digits2_pos p) - 53).
      repeat split; try lia.
      rewrite iter_xO_value. f_equal. f_equal. lia.
    + rewrite digits2_pos_iter_xO. lia.
    + lia.
Qed.

(** A Unix time below 2^53 survives the way through a JSON number. *)
Lemma int64_float64_round_trip (z : Z) :
  0 <= z < 2 ^ 53 -> int64_of_float64 (float64_of_int64 z) = z.
Proof.
  intros Hz. unfold float64_of_int64, binary_normalize.
  destruct z as [|p|p]; [reflexivity| |lia].
  destruct (float64_of_pos p) as (m & e & -> & He & Hm); [lia|].
  unfold int64_of_float64.
  assert (Hmag : match e with
                 | 0 => Z.pos m
                 | Z.pos q => Z.pos m * 2 ^ Z.pos q
                 | Z.neg q => Z.pos m / 2 ^ Z.pos q
                 end = Z.pos p).
  { destruct e as [|q|q]; [simpl in Hm; lia|lia|].
    rewrite Hm. change (- Z.neg q) with (Z.pos q).
    apply Z.div_mul. lia. }
  rewrite Hmag.
  assert (Z.pos p < 2 ^ 63) by (change (2 ^ 63) with (2 ^ 53 * 1024); lia).
  unfold int64_min, int64_max.
  destruct (Z.leb_spec (- 2 ^ 63) (Z.pos p)); [|lia].
  destruct (Z.leb_spec (Z.pos p) (2 ^ 63 - 1)); [reflexivity|lia].
Qed.

(** ** Life of a temporary value *)

(** X1.  On a JSON-backed store, a value stored with [StoreTemporaryValue]
    is readable exactly as long as the clock's Unix second is not beyond
    the second of its expiry: up to then [GetTemporaryValue] returns the
    value and leaves the table as it is; from the next second on it
    returns NOT_FOUND and the entry is gone.  Whatever was stored under
    the key before is replaced. *)
Theorem temporary_value_lifetime
    (strict : bool) (table : string) (now now' : Time) (key value : string)
    (expiry : Duration) (σ : Mem.state) :
  0 <= Unix (Add now expiry) < 2 ^ 53 ->
  let st := Mem.storage strict table in
  let σ1 := fst (StoreTemporaryValue st now key value expiry σ) in
  snd (StoreTemporaryValue st now key value expiry σ) = None
  /\ (Unix now' <= Unix (Add now expiry) ->
      GetTemporaryValue st now' key σ1 = (σ1, (value, None)))
  /\ (Unix now' > Unix (Add now expiry) ->
      GetTemporaryValue st now' key σ1
      = (delete (table, temp_key key) σ1,
         ("", Some (mkStorageError ErrNotFound "Temporary value expired"
                      None)))).
Proof.
  intros Hrange st σ1.
  set (m := Mem.json_value <$>
              ({[ "value" := AString value;
                  "expires_at" := AInt64 (Unix (Add now expiry)) ]} : item)).
  assert (HGet : Get (client st) (tableName st) (temp_key key) σ1
                 = (σ1, (Some m, None))).
  { subst σ1 st. simpl. rewrite lookup_insert_eq. reflexivity. }
  assert (Hexp : m !! "expires_at"
                 = Some (AFloat64 (float64_of_int64 (Unix (Add now expiry)))))
    by reflexivity.
  assert (Hval : m !! "value" = Some (AString value)) by reflexivity.
  split; [reflexivity|]. split; intros Hnow.
  - apply GetTemporaryValue_live
      with (m := m) (f := float64_of_int64 (Unix (Add now expiry))); auto.
    rewrite int64_float64_round_trip by exact Hrange. exact Hnow.
  - rewrite (GetTemporaryValue_expired st now' key σ1 σ1 m
               (float64_of_int64 (Unix (Add now expiry))) HGet Hexp).
    + reflexivity.
    + rewrite int64_float64_round_trip by exact Hrange. exact Hnow.
Qed.

(** X1 at work: a five-minute challenge stored at [t0]. *)
Lemma temporary_value_lifetime_witness :
  0 <= Unix (Add Samples.t0 Samples.five_minutes) < 2 ^ 53
  /\ (let st := Mem.storage true "users" in
      let σ1 :=
        fst (StoreTemporaryValue st Samples.t0 "reg:u1" "c2VjcmV0"
               Samples.five_minutes ∅) in
      snd (StoreTemporaryValue st Samples.t0 "reg:u1" "c2VjcmV0"
             Samples.five_minutes ∅) = None
      /\ (Unix Samples.at_expiry <= Unix (Add Samples.t0 Samples.five_minutes)
          -> GetTemporaryValue st Samples.at_expiry "reg:u1" σ1
             = (σ1, ("c2VjcmV0", None)))
      /\ (Unix Samples.at_expiry > Unix (Add Samples.t0 Samples.five_minutes)
          -> GetTemporaryValue st Samples.at_expiry "reg:u1" σ1
             = (delete ("users", temp_key "reg:u1") σ1,
                ("", Some (mkStorageError ErrNotFound
                             "Temporary value expired" None))))).
Proof.
  assert (H : 0 <= Unix (Add Samples.t0 Samples.five_minutes) < 2 ^ 53)
    by (split; [vm_compute; discriminate | vm_compute; reflexivity]).
  split; [exact H|].
  exact (temporary_value_lifetime true "users" Samples.t0 Samples.at_expiry
           "reg:u1" "c2VjcmV0" Samples.five_minutes ∅ H).
Defined.

(** ** What the storage operations send and return *)

Section StorageCalls.

Context {Σ : Type}.
Variable s : NoSQLStorage Σ.

Lemma traced_Query t i cond ps (σ σ1 : Σ) log r :
  Query (client s) t i cond ps σ = (σ1, r) ->
  Query (client (traced_storage s)) t i cond ps (σ, log)
  = ((σ1, log ++ [CQuery t i cond ps]), r).
Proof. intros E. simpl. rewrite E. reflexivity. Qed.

Lemma GetCredentials_loop_ok (dec : item -> Credential * option error)
    (results : list item) (acc : list Credential) :
  Forall (fun m => snd (dec m) = None) results ->
  GetCredentials_loop dec results acc
  = inl (acc ++ map (fun m => fst (dec m)) results).
Proof.
  intros Hok. revert acc.
  induction Hok as [|m results Hm _ IH]; intros acc; simpl.
  - rewrite app_nil_r. reflexivity.
  - destruct (dec m) as [c e]. simpl in Hm. subst e.
    rewrite IH, <- app_assoc. reflexivity.
Qed.

Lemma GetCredentials_loop_bad (dec : item -> Credential * option error)
    (good rest : list item) (bad : item) (e : error)
    (acc : list Credential) :
  Forall (fun m => snd (dec m) = None) good ->
  snd (dec bad) = Some e ->
  GetCredentials_loop dec (good ++ bad :: rest) acc = inr e.
Proof.
  intros Hok Hbad. revert acc.
  induction Hok as [|m good Hm _ IH]; intros acc; simpl.
  - destruct (dec bad) as [c e']. simpl in Hbad. subst e'. reflexivity.
  - destruct (dec m) as [c e']. simpl in Hm. subst e'. apply IH.
Qed.

(** X2.  When the index query succeeds and every result decodes,
    [GetCredentials] returns one credential per result, in the order of
    the results, with a nil error; for no results that is the empty list,
    not an error. *)
Theorem GetCredentials_one_per_result
    (dec : item -> Credential * option error) (userID : string)
    (σ σ1 : Σ) (results : list item) :
  Query (client s) (tableName s) "user-credentials-index"
    "user_id = :user_id" {[ ":user_id" := AString userID ]} σ
  = (σ1, (results, None)) ->
  Forall (fun m => snd (dec m) = None) results ->
  GetCredentials dec s userID σ
  = (σ1, (Some (map (fun m => fst (dec m)) results), None)).
Proof.
  intros HQ Hok. unfold GetCredentials. rewrite HQ.
  rewrite (GetCredentials_loop_ok dec results [] Hok). reflexivity.
Qed.

(** X3.  [GetCredentials] is all or nothing: when one result fails to
    decode, the credentials decoded before it are dropped and the call
    returns a nil list with INTERNAL_ERROR around the decoding error. *)
Theorem GetCredentials_all_or_nothing
    (dec : item -> Credential * option error) (userID : string)
    (σ σ1 : Σ) (good rest : list item) (bad : item) (e : error) :
  Query (client s) (tableName s) "user-credentials-index"
    "user_id = :user_id" {[ ":user_id" := AString userID ]} σ
  = (σ1, (good ++ bad :: rest, None)) ->
  Forall (fun m => snd (dec m) = None) good ->
  snd (dec bad) = Some e ->
  GetCredentials dec s userID σ
  = (σ1, (None, Some (mkStorageError ErrInternal
                        "Failed to unmarshal credential" (Some e)))).
Proof.
  intros HQ Hok Hbad. unfold GetCredentials. rewrite HQ.
  rewrite (GetCredentials_loop_bad dec good rest bad e [] Hok Hbad).
  reflexivity.
Qed.

(** X4.  The three reads send one request each and never write: [GetUser]
    one [Get] of the id, [GetUserByEmail] one [Query] on email-index,
    [GetCredentials] one [Query] on user-credentials-index, whatever the
    client answers. *)
Theorem reads_send_one_request
    (decU : item -> User * option error)
    (decC : item -> Credential * option error)
    (id email userID : string) (σ : Σ) :
  calls_of (GetUser decU (traced_storage s) id) σ = [CGet (tableName s) id]
  /\ calls_of (GetUserByEmail decU (traced_storage s) email) σ
     = [CQuery (tableName s) "email-index" "email = :email"
          {[ ":email" := AString email ]}]
  /\ calls_of (GetCredentials decC (traced_storage s) userID) σ
     = [CQuery (tableName s) "user-credentials-index" "user_id = :user_id"
          {[ ":user_id" := AString userID ]}].
Proof.
  unfold calls_of. split; [|split].
  - unfold GetUser.
    destruct (Get (client s) (tableName s) id σ) as [σ1 [result err]] eqn:E.
    simpl. rewrite E. simpl.
    destruct err; [reflexivity|]. destruct result as [m|]; [|reflexivity].
    destruct (decU m) as [u [e|]]; reflexivity.
  - unfold GetUserByEmail.
    destruct (Query (client s) (tableName s) "email-index" "email = :email"
                {[ ":email" := AString email ]} σ)
      as [σ1 [results err]] eqn:E.
    simpl. rewrite E. simpl.
    destruct err; [reflexivity|]. destruct results as [|m ms]; [reflexivity|].
    destruct (decU m) as [u [e|]]; reflexivity.
  - unfold GetCredentials.
    destruct (Query (client s) (tableName s) "user-credentials-index"
                "user_id = :user_id" {[ ":user_id" := AString userID ]} σ)
      as [σ1 [results err]] eqn:E.
    simpl. rewrite E. simpl.
    destruct err; [reflexivity|].
    destruct (GetCredentials_loop decC results []); reflexivity.
Qed.

Lemma CreateUser_calls (user : User) (σ : Σ) :
  calls_of (CreateUser (traced_storage s) user) σ
  = CGet (tableName s) (User_ID user)
    :: match snd (snd (Get (client s) (tableName s) (User_ID user) σ)) with
       | Some _ => [CPut (tableName s) (User_ID user) (DUser user)]
       | None => []
       end.
Proof.
  unfold calls_of, CreateUser.
  destruct (Get (client s) (tableName s) (User_ID user) σ)
    as [σ1 [result err]] eqn:E.
  simpl. rewrite E. simpl.
  destruct err as [e|]; [|reflexivity].
  destruct (Put (client s) (tableName s) (User_ID user) (DUser user) σ1)
    as [σ2 [e'|]]; reflexivity.
Qed.

(** X5.  [CreateUser] sends a [Get] of the user's id and then, exactly
    when that [Get] returned an error, one [Put] of the user under its
    id; it sends nothing else, whatever the client answers. *)
Theorem CreateUser_puts_after_failed_Get (user : User) (σ : Σ) :
  let failed :=
    snd (snd (Get (client s) (tableName s) (User_ID user) σ)) in
  (failed = None ->
   calls_of (CreateUser (traced_storage s) user) σ
   = [CGet (tableName s) (User_ID user)])
  /\ (failed <> None ->
      calls_of (CreateUser (traced_storage s) user) σ
      = [CGet (tableName s) (User_ID user);
         CPut (tableName s) (User_ID user) (DUser user)]).
Proof.
  intros failed. subst failed. rewrite CreateUser_calls.
  destruct (snd (snd (Get (client s) (tableName s) (User_ID user) σ)));
    split; intros H; congruence.
Qed.

(** X6.  The getters return exactly one of a result and an error:
    [GetUser], [GetUserByEmail] and [GetCredentials] a non-nil result with
    a nil error or a nil result with an error; [GetTemporaryValue] the
    empty string whenever it returns an error. *)
Theorem getters_return_result_or_error
    (decU : item -> User * option error)
    (decC : item -> Credential * option error)
    (now : Time) (key : string) (σ : Σ) :
  exactly_one (snd (GetUser decU s key σ))
  /\ exactly_one (snd (GetUserByEmail decU s key σ))
  /\ exactly_one (snd (GetCredentials decC s key σ))
  /\ (snd (snd (GetTemporaryValue s now key σ)) <> None ->
      fst (snd (GetTemporaryValue s now key σ)) = "").
Proof.
  split; [|split; [|split]].
  - unfold GetUser.
    destruct (Get _ _ _ _) as [σ1 [[m|] [e|]]]; simpl; auto.
    destruct (decU m) as [u [e|]]; simpl; auto.
  - unfold GetUserByEmail.
    destruct (Query _ _ _ _ _ _) as [σ1 [[|m ms] [e|]]]; simpl; auto.
    destruct (decU m) as [u [e|]]; simpl; auto.
  - unfold GetCredentials.
    destruct (Query _ _ _ _ _ _) as [σ1 [results [e|]]]; simpl; auto.
    destruct (GetCredentials_loop decC results []); simpl; auto.
  - unfold GetTemporaryValue.
    destruct (Get _ _ _ _) as [σ1 [[m|] [e|]]]; simpl; auto.
    destruct (assert_float64 (m !! "expires_at")) as [f [|]]; simpl; auto.
    destruct (Unix now >? int64_of_float64 f).
    + destruct (Delete _ _ _ _); simpl; auto.
    + destruct (assert_string (m !! "value")) as [v [|]]; simpl; auto.
      intros H. congruence.
Qed.

End StorageCalls.

(** X2 at work: two credentials of u1 in the table. *)
Lemma GetCredentials_one_per_result_witness :
  let s := Samples.strict_users in
  let σ : Mem.state :=
    <[("users", "c2") := DCredential Fixtures.key_2]>
      (<[("users", "c1") := DCredential Fixtures.key_1]> ∅) in
  let results :=
    fst (snd (Query (client s) (tableName s) "user-credentials-index"
                "user_id = :user_id" {[ ":user_id" := AString "u1" ]} σ)) in
  length results = 2%nat
  /\ GetCredentials decode_Credential s "u1" σ
     = (σ, (Some (map (fun m => fst (decode_Credential m)) results), None)).
Proof.
  intros s σ results.
  assert (HQ : Query (client s) (tableName s) "user-credentials-index"
                 "user_id = :user_id" {[ ":user_id" := AString "u1" ]} σ
               = (σ, (results, None))) by reflexivity.
  assert (Hok : Forall (fun m => snd (decode_Credential m) = None) results).
  { apply Forall_forall. intros m Hm.
    assert (Hres : results = [Mem.to_item (DCredential Fixtures.key_1);
                              Mem.to_item (DCredential Fixtures.key_2)]
                   \/ results = [Mem.to_item (DCredential Fixtures.key_2);
                                 Mem.to_item (DCredential Fixtures.key_1)]).
    { first [left; reflexivity | right; reflexivity]. }
    destruct Hres as [Hres|Hres]; rewrite Hres in Hm;
      repeat (apply elem_of_cons in Hm as [->|Hm]; [reflexivity|]);
      inversion Hm. }
  split; [reflexivity|].
  exact (GetCredentials_one_per_result s decode_Credential "u1" σ σ results
           HQ Hok).
Defined.

(** X3 at work: a record of u1 whose id is a number. *)
Lemma GetCredentials_all_or_nothing_witness :
  let s := Samples.strict_users in
  let bad : item := {[ "user_id" := AString "u1"; "id" := AFloat64 (float64_of_int64 7) ]} in
  let σ : Mem.state :=
    <[("users", "odd") := DMap {[ "user_id" := AString "u1"; "id" := AInt64 7 ]}]> ∅ in
  GetCredentials decode_Credential s "u1" σ
  = (σ, (None, Some (mkStorageError ErrInternal
                       "Failed to unmarshal credential"
                       (Some "json: cannot unmarshal into Go struct field")))).
Proof.
  intros s bad σ.
  assert (HQ : Query (client s) (tableName s) "user-credentials-index"
                 "user_id = :user_id" {[ ":user_id" := AString "u1" ]} σ
               = (σ, ([] ++ bad :: [], None))) by reflexivity.
  assert (Hbad : snd (decode_Credential bad)
                 = Some "json: cannot unmarshal into Go struct field")
    by reflexivity.
  exact (GetCredentials_all_or_nothing s decode_Credential "u1" σ σ [] []
           bad _ HQ (List.Forall_nil _) Hbad).
Defined.

(** ** One table, one key space *)

(** X7.  [StoreCredential] writes without looking: whatever the table
    holds under the credential's id is replaced.  A user record whose id
    equals the credential's id is lost, and the id stays taken for
    [CreateUser]. *)
Theorem StoreCredential_replaces_user
    (strict : bool) (table : string) (σ : Mem.state) (user : User)
    (credential : Credential) :
  σ !! (table, User_ID user) = Some (DUser user) ->
  Credential_ID credential = User_ID user ->
  let st := Mem.storage strict table in
  let σ1 := fst (StoreCredential st credential σ) in
  snd (StoreCredential st credential σ) = None
  /\ calls_of (StoreCredential (traced_storage st) credential) σ
     = [CPut table (Credential_ID credential) (DCredential credential)]
  /\ σ1 !! (table, User_ID user) = Some (DCredential credential)
  /\ (forall u : User, σ1 !! (table, User_ID user) <> Some (DUser u))
  /\ CreateUser st user σ1
     = (σ1, Some (mkStorageError ErrAlreadyExists "User already exists"
                    None)).
Proof.
  intros Huser Hid st σ1.
  assert (Hnew : σ1 !! (table, User_ID user) = Some (DCredential credential)).
  { subst σ1 st. rewrite Mem_StoreCredential_state, Hid.
    apply lookup_insert_eq. }
  split; [reflexivity|]. split; [reflexivity|]. split; [exact Hnew|].
  split.
  - intros u. rewrite Hnew. discriminate.
  - apply Mem_CreateUser_taken with (d := DCredential credential).
    exact Hnew.
Qed.

(** X7 at work: a credential with the id of the stored user u1. *)
Lemma StoreCredential_replaces_user_witness :
  let credential := mkCredential "u1" "u2" [9] "none" 0 in
  Samples.after_alice !! ("users", User_ID Samples.alice)
  = Some (DUser Samples.alice)
  /\ fst (StoreCredential Samples.strict_users credential Samples.after_alice)
       !! ("users", "u1")
     = Some (DCredential credential).
Proof.
  intros credential.
  assert (H : Samples.after_alice !! ("users", User_ID Samples.alice)
              = Some (DUser Samples.alice)) by reflexivity.
  split; [exact H|].
  exact (proj1 (proj2 (proj2
           (StoreCredential_replaces_user true "users" Samples.after_alice
              Samples.alice credential H eq_refl)))).
Defined.

(** X8.  Temporary values live in the users' table under "temp:" and the
    key: once a value is stored under a key, [CreateUser] refuses the
    user whose id is "temp:" followed by that key, and a user created
    under such an id is replaced by the next value stored under the
    key. *)
Theorem temporary_values_share_the_user_keys
    (strict : bool) (table : string) (σ : Mem.state) (user : User)
    (now : Time) (key value : string) (expiry : Duration) :
  User_ID user = temp_key key ->
  let st := Mem.storage strict table in
  let σ1 := fst (StoreTemporaryValue st now key value expiry σ) in
  CreateUser st user σ1
  = (σ1, Some (mkStorageError ErrAlreadyExists "User already exists" None))
  /\ (forall u : User, σ1 !! (table, User_ID user) <> Some (DUser u)).
Proof.
  intros Hid st σ1.
  destruct (Mem_StoreTemporaryValue_state strict table now key value expiry σ)
    as [m Hm].
  assert (Hnew : σ1 !! (table, User_ID user) = Some (DMap m)).
  { subst σ1 st. rewrite Hm, Hid. apply lookup_insert_eq. }
  split.
  - apply Mem_CreateUser_taken with (d := DMap m). exact Hnew.
  - intros u. rewrite Hnew. discriminate.
Qed.

(** X8 at work: the user "temp:reg:u1" beside the challenge of u1. *)
Lemma temporary_values_share_the_user_keys_witness :
  let user := mkUser "temp:reg:u1" "t@example.com" 0 0 in
  User_ID user = temp_key "reg:u1"
  /\ CreateUser Samples.strict_users user Samples.with_challenge
     = (Samples.with_challenge,
        Some (mkStorageError ErrAlreadyExists "User already exists" None)).
Proof.
  intros user.
  assert (H : User_ID user = temp_key "reg:u1") by reflexivity.
  split; [exact H|].
  exact (proj1 (temporary_values_share_the_user_keys true "users" ∅ user
                  Samples.t0 "reg:u1" "c2VjcmV0" Samples.five_minutes H)).
Defined.

(** ** The cache *)

Section CacheFacts.

Context {Σ : Type}.
Variable c : RedisCache.Client Σ.

(** X9.  A cache read tells a miss from a failure.  When Redis answers
    [redis.Nil], [GetUser], [GetCredentials] and [GetMFAMethods] return a
    nil result with NOT_FOUND and no cause; any other Redis error gives
    INTERNAL_ERROR around its message.  The JSON decoder has no say in
    either case. *)
Theorem cache_read_miss_or_failure
    (json_User : RedisCache.Codec User)
    (json_Credentials : RedisCache.Codec (RedisCache.pointers Credential))
    (json_MFAMethods : RedisCache.Codec (RedisCache.pointers MFAMethod))
    (userID : string) (σ : Σ) :
  let outcome (e : RedisCache.redis_error) :=
    match e with
    | RedisCache.redis_Nil =>
        mkStorageError ErrNotFound "Cache key not found" None
    | RedisCache.redis_failure msg =>
        mkStorageError ErrInternal "Failed to get from cache" (Some msg)
    end in
  (forall σ1 v e,
     RedisCache.redis_Get c ("user:" +:+ userID) σ = (σ1, (v, Some e)) ->
     RedisCache.GetUser c json_User userID σ = (σ1, (None, Some (outcome e))))
  /\ (forall σ1 v e,
        RedisCache.redis_Get c ("credentials:" +:+ userID) σ
        = (σ1, (v, Some e)) ->
        RedisCache.GetCredentials c json_Credentials userID σ
        = (σ1, (None, Some (outcome e))))
  /\ (forall σ1 v e,
        RedisCache.redis_Get c ("mfa:" +:+ userID) σ = (σ1, (v, Some e)) ->
        RedisCache.GetMFAMethods c json_MFAMethods userID σ
        = (σ1, (None, Some (outcome e)))).
Proof.
  intros outcome. repeat split; intros σ1 v e HGet.
  - unfold RedisCache.GetUser, RedisCache.Get. rewrite HGet.
    destruct e; reflexivity.
  - unfold RedisCache.GetCredentials, RedisCache.Get. rewrite HGet.
    destruct e; reflexivity.
  - unfold RedisCache.GetMFAMethods, RedisCache.Get. rewrite HGet.
    destruct e; reflexivity.
Qed.

Lemma logged_loop (patterns : list string) (σ : Σ)
    (log : list RedisCache.command) :
  exists new,
    snd (fst (RedisCache.InvalidateUser_loop (RedisCache.logged c) patterns
                (σ, log)))
    = log ++ new
    /\ Forall (fun cmd =>
                 match cmd with
                 | RedisCache.CmdKeys p => In p patterns
                 | RedisCache.CmdDel ks => ks <> []
                 | _ => False
                 end) new
    /\ (length new <= 2 * length patterns)%nat.
Proof.
  revert σ log. induction patterns as [|p rest IH]; intros σ log.
  - exists []. simpl. rewrite app_nil_r.
    split; [reflexivity|]. split; [constructor|lia].
  - assert (Hrest : forall new,
               Forall (fun cmd =>
                         match cmd with
                         | RedisCache.CmdKeys q => In q rest
                         | RedisCache.CmdDel ks => ks <> []
                         | _ => False
                         end) new ->
               Forall (fun cmd =>
                         match cmd with
                         | RedisCache.CmdKeys q => In q (p :: rest)
                         | RedisCache.CmdDel ks => ks <> []
                         | _ => False
                         end) new).
    { intros new Hall. eapply Forall_impl; [exact Hall|].
      intros [] Hc; simpl in *; auto. }
    simpl.
    destruct (RedisCache.redis_Keys c p σ) as [σ1 [keys [e|]]] eqn:HK.
    + exists [RedisCache.CmdKeys p]. simpl.
      split; [reflexivity|]. split; [|lia].
      constructor; [left; reflexivity|constructor].
    + destruct keys as [|k ks]; simpl.
      * destruct (IH σ1 (log ++ [RedisCache.CmdKeys p]))
          as (new & Hnew & Hall & Hlen).
        exists (RedisCache.CmdKeys p :: new).
        rewrite Hnew, <- app_assoc.
        split; [reflexivity|]. split; [|simpl; lia].
        constructor; [left; reflexivity|apply Hrest, Hall].
      * destruct (RedisCache.redis_Del c (k :: ks) σ1) as [σ2 [e|]] eqn:HD.
        -- exists [RedisCache.CmdKeys p; RedisCache.CmdDel (k :: ks)].
           simpl. rewrite <- app_assoc.
           split; [reflexivity|]. split; [|lia].
           constructor; [left; reflexivity|].
           constructor; [discriminate|constructor].
        -- destruct (IH σ2 ((log ++ [RedisCache.CmdKeys p])
                            ++ [RedisCache.CmdDel (k :: ks)]))
             as (new & Hnew & Hall & Hlen).
           exists (RedisCache.CmdKeys p :: RedisCache.CmdDel (k :: ks) :: new).
           rewrite Hnew, <- !app_assoc.
           split; [reflexivity|]. split; [|simpl; lia].
           constructor; [left; reflexivity|].
           constructor; [discriminate|apply Hrest, Hall].
Qed.

(** X10.  [InvalidateUser] sends only [KEYS] and [DEL]: each [KEYS] asks
    for one of "user:", "credentials:" and "mfa:" followed by the user id,
    no [DEL] is sent with an empty list of keys, and there are at most six
    commands in all. *)
Theorem InvalidateUser_commands (userID : string) (σ : Σ) :
  let commands :=
    RedisCache.commands_of
      (RedisCache.InvalidateUser (RedisCache.logged c) userID) σ in
  Forall (fun cmd =>
            match cmd with
            | RedisCache.CmdKeys p =>
                p = "user:" +:+ userID \/ p = "credentials:" +:+ userID
                \/ p = "mfa:" +:+ userID
            | RedisCache.CmdDel ks => ks <> []
            | _ => False
            end) commands
  /\ (length commands <= 6)%nat.
Proof.
  intros commands. subst commands.
  unfold RedisCache.commands_of, RedisCache.InvalidateUser.
  destruct (logged_loop
              ["user:" +:+ userID; "credentials:" +:+ userID;
               "mfa:" +:+ userID] σ [])
    as (new & Hnew & Hall & Hlen).
  rewrite Hnew. simpl. split; [|exact Hlen].
  eapply Forall_impl; [exact Hall|].
  intros [] Hc; simpl in *; auto. intuition.
Qed.

(** X11.  [InvalidateUser] does not undo what it has deleted: when the
    user entry is found and deleted and the next [KEYS] fails, the call
    returns INTERNAL_ERROR "Failed to get cache keys" in the state in
    which the user entry is gone. *)
Theorem InvalidateUser_stops_at_first_error
    (userID : string) (σ σ1 σ2 σ3 : Σ) (k : string) (ks keys : list string)
    (e : RedisCache.redis_error) :
  RedisCache.redis_Keys c ("user:" +:+ userID) σ = (σ1, (k :: ks, None)) ->
  RedisCache.redis_Del c (k :: ks) σ1 = (σ2, None) ->
  RedisCache.redis_Keys c ("credentials:" +:+ userID) σ2
  = (σ3, (keys, Some e)) ->
  RedisCache.InvalidateUser c userID σ
  = (σ3, Some (mkStorageError ErrInternal "Failed to get cache keys"
                 (Some (RedisCache.error_message e))))
  /\ RedisCache.commands_of
       (RedisCache.InvalidateUser (RedisCache.logged c) userID) σ
     = [RedisCache.CmdKeys ("user:" +:+ userID);
        RedisCache.CmdDel (k :: ks);
        RedisCache.CmdKeys ("credentials:" +:+ userID)].
Proof.
  intros HK1 HD HK2. split.
  - unfold RedisCache.InvalidateUser. simpl. rewrite HK1. simpl.
    rewrite HD, HK2. reflexivity.
  - unfold RedisCache.commands_of, RedisCache.InvalidateUser. simpl.
    rewrite HK1. simpl. rewrite HD, HK2. reflexivity.
Qed.

End CacheFacts.

(** X11 at work: the connection is lost after the first deletion. *)
Lemma InvalidateUser_stops_at_first_error_witness :
  RedisCache.InvalidateUser Fixtures.FlakyRedis "u1" O
  = (1%nat, Some (mkStorageError ErrInternal "Failed to get cache keys"
                    (Some "connection reset")))
  /\ RedisCache.commands_of
       (RedisCache.InvalidateUser (RedisCache.logged Fixtures.FlakyRedis)
          "u1") O
     = [RedisCache.CmdKeys "user:u1"; RedisCache.CmdDel ["user:u1"];
        RedisCache.CmdKeys "credentials:u1"].
Proof.
  exact (InvalidateUser_stops_at_first_error Fixtures.FlakyRedis "u1"
           O O 1%nat 1%nat "user:u1" [] []
           (RedisCache.redis_failure "connection reset")
           eq_refl eq_refl eq_refl).
Defined.

(** ** The cache in memory *)

Lemma has_glob_prefixed (userID : string) :
  Fixtures.has_glob userID = false ->
  Fixtures.has_glob ("user:" +:+ userID) = false
  /\ Fixtures.has_glob ("credentials:" +:+ userID) = false
  /\ Fixtures.has_glob ("mfa:" +:+ userID) = false.
Proof. intros H. repeat split; exact H. Qed.

Lemma MemRedis_loop_step (p : string) (rest : list string)
    (σ : gmap string string) :
  Fixtures.has_glob p = false ->
  RedisCache.InvalidateUser_loop Fixtures.MemRedis (p :: rest) σ
  = RedisCache.InvalidateUser_loop Fixtures.MemRedis rest (delete p σ).
Proof.
  intros Hp. cbn [RedisCache.InvalidateUser_loop].
  cbn [RedisCache.redis_Keys Fixtures.MemRedis]. rewrite Hp.
  destruct (decide (is_Some (σ !! p))) as [Hin|Hout].
  - reflexivity.
  - cbn. f_equal. symmetry. apply delete_id.
    destruct (σ !! p) eqn:E; [|reflexivity].
    exfalso. apply Hout. eexists. reflexivity.
Qed.

(** X12.  What [SetUser] caches, [GetUser] returns: for a user the JSON
    codec encodes and decodes back, a [GetUser] of the user's id right
    after [SetUser] returns that user, whatever the cache held before. *)
Theorem cached_user_round_trip
    (json : RedisCache.Codec User) (user : User) (data : string)
    (expiration : Duration) (σ : gmap string string) :
  RedisCache.Marshal json user = (data, None) ->
  RedisCache.Unmarshal json data = (user, None) ->
  let σ1 := fst (RedisCache.SetUser Fixtures.MemRedis json user expiration σ) in
  snd (RedisCache.SetUser Fixtures.MemRedis json user expiration σ) = None
  /\ σ1 !! ("user:" +:+ User_ID user) = Some data
  /\ RedisCache.GetUser Fixtures.MemRedis json (User_ID user) σ1
     = (σ1, (Some user, None)).
Proof.
  intros Hm Hu σ1. subst σ1.
  unfold RedisCache.SetUser. rewrite Hm. cbn.
  split; [reflexivity|]. split; [apply lookup_insert_eq|].
  unfold RedisCache.GetUser, RedisCache.Get. cbn.
  rewrite lookup_insert_eq, Hu. reflexivity.
Qed.

(** X12 at work: alice and the codec that knows her. *)
Lemma cached_user_round_trip_witness :
  RedisCache.Marshal Fixtures.json_alice Samples.alice
  = (Fixtures.alice_text, None)
  /\ RedisCache.GetUser Fixtures.MemRedis Fixtures.json_alice "u1"
       (fst (RedisCache.SetUser Fixtures.MemRedis Fixtures.json_alice
               Samples.alice (10 * 60 * Second) ∅))
     = (fst (RedisCache.SetUser Fixtures.MemRedis Fixtures.json_alice
               Samples.alice (10 * 60 * Second) ∅),
        (Some Samples.alice, None)).
Proof.
  split; [reflexivity|].
  exact (proj2 (proj2
           (cached_user_round_trip Fixtures.json_alice Samples.alice
              Fixtures.alice_text (10 * 60 * Second) ∅ eq_refl eq_refl))).
Defined.

(** X13.  For a user id without glob characters, [InvalidateUser] removes
    the three entries of that user, "user:", "credentials:" and "mfa:"
    followed by the id, and leaves every other key as it is; a [GetUser]
    of the id then misses with NOT_FOUND. *)
Theorem InvalidateUser_clears_the_user
    (json : RedisCache.Codec User) (userID : string)
    (σ : gmap string string) :
  Fixtures.has_glob userID = false ->
  let σ1 := fst (RedisCache.InvalidateUser Fixtures.MemRedis userID σ) in
  snd (RedisCache.InvalidateUser Fixtures.MemRedis userID σ) = None
  /\ σ1 = delete ("mfa:" +:+ userID)
            (delete ("credentials:" +:+ userID)
               (delete ("user:" +:+ userID) σ))
  /\ (forall k : string,
        k <> "user:" +:+ userID -> k <> "credentials:" +:+ userID ->
        k <> "mfa:" +:+ userID -> σ1 !! k = σ !! k)
  /\ RedisCache.GetUser Fixtures.MemRedis json userID σ1
     = (σ1, (None, Some (mkStorageError ErrNotFound "Cache key not found"
                           None))).
Proof.
  intros Hglob σ1.
  destruct (has_glob_prefixed userID Hglob) as (Hu & Hc & Hm).
  assert (Hrun : RedisCache.InvalidateUser Fixtures.MemRedis userID σ
                 = (delete ("mfa:" +:+ userID)
                      (delete ("credentials:" +:+ userID)
                         (delete ("user:" +:+ userID) σ)), None)).
  { unfold RedisCache.InvalidateUser.
    rewrite !MemRedis_loop_step by assumption. reflexivity. }
  subst σ1. rewrite Hrun. cbn [fst snd].
  split; [reflexivity|]. split; [reflexivity|]. split.
  - intros k H1 H2 H3. rewrite !lookup_delete_ne by congruence. reflexivity.
  - unfold RedisCache.GetUser, RedisCache.Get.
    cbn [RedisCache.redis_Get Fixtures.MemRedis].
    rewrite !lookup_delete_ne by discriminate.
    rewrite lookup_delete_eq. reflexivity.
Qed.

(** X13 at work: the cache holds alice and a stranger. *)
Lemma InvalidateUser_clears_the_user_witness :
  let σ : gmap string string :=
    <["user:u1" := Fixtures.alice_text]> (<["user:u9" := "id=u9"]> ∅) in
  Fixtures.has_glob "u1" = false
  /\ fst (RedisCache.InvalidateUser Fixtures.MemRedis "u1" σ) !! "user:u1"
     = None
  /\ fst (RedisCache.InvalidateUser Fixtures.MemRedis "u1" σ) !! "user:u9"
     = Some "id=u9".
Proof.
  intros σ.
  pose proof (InvalidateUser_clears_the_user Fixtures.json_alice "u1" σ
                eq_refl) as (_ & Hstate & Hother & _).
  split; [reflexivity|]. split.
  - rewrite Hstate. reflexivity.
  - rewrite (Hother "user:u9") by discriminate. reflexivity.
Defined.

(** ** Consuming events *)

Section ConsumerFacts.

Context {W : Type}.
Variable json_Unmarshal : string -> Events.Event * option error.
Variable handlers : gmap string (Events.EventHandler W).

(** X14.  [ConsumeClaim] returns nil whatever happens to the messages,
    and marks only messages it has seen handled: the marked messages are
    added after those marked before, in the order of delivery, and each
    of them decoded, had a handler registered for its type and had that
    handler return nil. *)
Theorem ConsumeClaim_marks_handled_messages
    (messages : list Events.ConsumerMessage) (w : W)
    (marked : list Events.ConsumerMessage) :
  exists (w' : W) (new : list Events.ConsumerMessage),
    Events.ConsumeClaim json_Unmarshal handlers messages w marked
    = ((w', marked ++ new), None)
    /\ new `sublist_of` messages
    /\ Forall (handled json_Unmarshal handlers) new.
Proof.
  revert w marked. induction messages as [|msg rest IH]; intros w marked.
  - exists w, []. simpl. rewrite app_nil_r.
    split; [reflexivity|]. split; constructor.
  - simpl.
    destruct (json_Unmarshal (Events.Value msg)) as [event [e|]] eqn:HU.
    { destruct (IH w marked) as (w' & new & -> & Hsub & Hall).
      exists w', new. split; [reflexivity|]. split; [|exact Hall].
      apply sublist_cons_r. left. exact Hsub. }
    destruct (handlers !! Events.Event_Type event) as [handler|] eqn:HH.
    2: { destruct (IH w marked) as (w' & new & -> & Hsub & Hall).
         exists w', new. split; [reflexivity|]. split; [|exact Hall].
         apply sublist_cons_r. left. exact Hsub. }
    destruct (Events.HandleEvent handler event w) as [w1 [e|]] eqn:HE.
    { destruct (IH w1 marked) as (w' & new & -> & Hsub & Hall).
      exists w', new. split; [reflexivity|]. split; [|exact Hall].
      apply sublist_cons_r. left. exact Hsub. }
    destruct (IH w1 (marked ++ [msg])) as (w' & new & -> & Hsub & Hall).
    exists w', (msg :: new). rewrite <- app_assoc.
    split; [reflexivity|]. split.
    + apply sublist_skip. exact Hsub.
    + constructor; [|exact Hall].
      exists event, handler, w, w1. auto.
Qed.

(** X15.  Consuming is sequential: the messages of two batches delivered
    one after the other are consumed as the second batch is, started from
    the state and the marks the first batch left. *)
Theorem ConsumeClaim_app
    (first second : list Events.ConsumerMessage) (w : W)
    (marked : list Events.ConsumerMessage) :
  Events.ConsumeClaim json_Unmarshal handlers (first ++ second) w marked
  = Events.ConsumeClaim json_Unmarshal handlers second
      (fst (fst (Events.ConsumeClaim json_Unmarshal handlers first w marked)))
      (snd (fst (Events.ConsumeClaim json_Unmarshal handlers first w marked))).
Proof.
  revert w marked. induction first as [|msg rest IH]; intros w marked.
  - reflexivity.
  - simpl.
    destruct (json_Unmarshal (Events.Value msg)) as [event [e|]];
      [apply IH|].
    destruct (handlers !! Events.Event_Type event) as [handler|];
      [|apply IH].
    destruct (Events.HandleEvent handler event w) as [w1 [e|]]; apply IH.
Qed.

(** X16.  Messages that do not decode, or whose event type has no
    registered handler, are passed over: no handler runs, nothing is
    marked, and the call still returns nil. *)
Theorem ConsumeClaim_skips_undeliverable
    (messages : list Events.ConsumerMessage) (w : W)
    (marked : list Events.ConsumerMessage) :
  Forall (fun msg => ~ Events.deliverable json_Unmarshal handlers msg)
    messages ->
  Events.ConsumeClaim json_Unmarshal handlers messages w marked
  = ((w, marked), None).
Proof.
  intros Hall. induction Hall as [|msg rest Hmsg _ IH]; [reflexivity|].
  simpl.
  destruct (json_Unmarshal (Events.Value msg)) as [event [e|]] eqn:HU;
    [exact IH|].
  destruct (handlers !! Events.Event_Type event) as [handler|] eqn:HH;
    [|exact IH].
  exfalso. apply Hmsg. exists event, handler. auto.
Qed.

End ConsumerFacts.

(** X16 at work: a message that is no JSON and one of an unhandled type. *)
Lemma ConsumeClaim_skips_undeliverable_witness :
  Events.ConsumeClaim Fixtures.decode_event Fixtures.registry
    [Fixtures.garbage; Fixtures.unknown] [] []
  = (([], []), None).
Proof.
  apply (ConsumeClaim_skips_undeliverable Fixtures.decode_event
           Fixtures.registry [Fixtures.garbage; Fixtures.unknown] [] []).
  repeat constructor; intros (event & handler & HU & HH);
    inversion HU; subst; discriminate HH.
Defined.

(** A run with all four kinds of message: the failing handler has run,
    its message is not marked. *)
Example ConsumeClaim_sample :
  Events.ConsumeClaim Fixtures.decode_event Fixtures.registry
    [Fixtures.garbage; Fixtures.created; Fixtures.unknown; Fixtures.deleted]
    [] []
  = ((["user.created"; "user.deleted"], [Fixtures.created]), None).
Proof. reflexivity. Qed.

(** ** Verification codes *)

Lemma digit_is_digit (d : Z) : 0 <= d <= 9 -> Fmt.is_digit (Fmt.digit d) = true.
Proof.
  intros H.
  assert (Hd : d = 0 \/ d = 1 \/ d = 2 \/ d = 3 \/ d = 4 \/ d = 5 \/ d = 6
               \/ d = 7 \/ d = 8 \/ d = 9) by lia.
  repeat (destruct Hd as [->|Hd]; [reflexivity|]). subst d. reflexivity.
Qed.

Lemma decimal_digits (fuel : nat) (n : Z) :
  0 <= n -> Forall (fun a => Fmt.is_digit a = true) (Fmt.decimal fuel n).
Proof.
  revert n. induction fuel as [|fuel IH]; intros n Hn; simpl.
  - constructor.
  - destruct (Z.ltb_spec n 10).
    + constructor; [apply digit_is_digit; lia|constructor].
    + apply Forall_app. split.
      * apply IH. apply Z.div_pos; lia.
      * constructor; [|constructor]. apply digit_is_digit.
        pose proof (Z.mod_pos_bound n 10). lia.
Qed.

Lemma decimal_length (k fuel : nat) (n : Z) :
  (1 <= k <= fuel)%nat -> 0 <= n < 10 ^ Z.of_nat k ->
  (length (Fmt.decimal fuel n) <= k)%nat.
Proof.
  revert fuel n. induction k as [|k IH]; intros fuel n Hk Hn; [lia|].
  destruct fuel as [|fuel]; [lia|]. simpl.
  destruct (Z.ltb_spec n 10); [simpl; lia|].
  rewrite length_app. simpl.
  destruct k as [|k'].
  - simpl in Hn. lia.
  - assert (Hlen : (length (Fmt.decimal fuel (n / 10)) <= S k')%nat).
    { apply IH; [lia|]. split; [apply Z.div_pos; lia|].
      apply Z.div_lt_upper_bound; [lia|].
      replace (10 * 10 ^ Z.of_nat (S k')) with (10 ^ Z.of_nat (S (S k')));
        [lia|].
      rewrite (Nat2Z.inj_succ (S k')), Z.pow_succ_r by lia. reflexivity. }
    lia.
Qed.

Lemma pad_length (width : nat) (l : list ascii) :
  (length l <= width)%nat -> length (Fmt.pad width l) = width.
Proof.
  intros H. unfold Fmt.pad. rewrite length_app, repeat_length. lia.
Qed.

Lemma pad_digits (width : nat) (l : list ascii) :
  Forall (fun a => Fmt.is_digit a = true) l ->
  Forall (fun a => Fmt.is_digit a = true) (Fmt.pad width l).
Proof.
  intros H. unfold Fmt.pad. apply Forall_app. split; [|exact H].
  apply Forall_forall. intros a Ha. apply list_elem_of_In, repeat_spec in Ha.
  subst a. reflexivity.
Qed.

Lemma string_of_list_length (l : list ascii) :
  String.length (String.string_of_list_ascii l) = length l.
Proof. induction l; simpl; congruence. Qed.

(** Within the range of an int64 nothing wraps. *)
Lemma wrap_int64_id (z : Z) :
  int64_min <= z <= int64_max -> wrap_int64 z = z.
Proof.
  unfold wrap_int64, int64_min, int64_max. intros H.
  rewrite Z.mod_small by lia. lia.
Qed.

(** The first instant whose nanoseconds exceed an int64,
    2262-04-11T23:47:16.854775808Z, reads as the least int64; its code
    has a sign and seven characters. *)
Example generateVerificationCode_after_wrap :
  MFA.UnixNano (2 ^ 63) = int64_min
  /\ MFA.generateVerificationCode (2 ^ 63) 6 = "-775808".
Proof. split; reflexivity. Qed.

(** X17.  Whenever the clock's nanosecond reading, an int64, is not
    negative, [generateVerificationCode] returns six decimal digits,
    whatever length it is asked for: its argument is not used. *)
Theorem generateVerificationCode_six_digits (now : Time) (length : Z) :
  0 <= MFA.UnixNano now ->
  String.length (MFA.generateVerificationCode now length) = 6%nat
  /\ Forall (fun a => Fmt.is_digit a = true)
       (String.list_ascii_of_string (MFA.generateVerificationCode now length))
  /\ MFA.generateVerificationCode now length
     = MFA.generateVerificationCode now 6.
Proof.
  intros Hnow. unfold MFA.generateVerificationCode.
  pose proof (Z.rem_bound_pos (MFA.UnixNano now) 1000000 Hnow ltac:(lia))
    as Hrem.
  set (r := Z.rem (MFA.UnixNano now) 1000000) in *.
  unfold Fmt.Sprintf_06d. destruct (Z.ltb_spec r 0); [lia|].
  split; [|split; [|reflexivity]].
  - rewrite string_of_list_length. apply pad_length.
    apply decimal_length; [lia|]. change (10 ^ Z.of_nat 6) with 1000000. lia.
  - rewrite String.list_ascii_of_string_of_list_ascii.
    apply pad_digits, decimal_digits. lia.
Qed.

(** X17 at work: the code of the sample instant, asked for with length 8. *)
Lemma generateVerificationCode_six_digits_witness :
  0 <= MFA.UnixNano Samples.t0
  /\ MFA.generateVerificationCode Samples.t0 8 = "456789"
  /\ String.length (MFA.generateVerificationCode Samples.t0 8) = 6%nat.
Proof.
  assert (H : 0 <= MFA.UnixNano Samples.t0) by (vm_compute; discriminate).
  split; [exact H|]. split; [reflexivity|].
  exact (proj1 (generateVerificationCode_six_digits Samples.t0 8 H)).
Defined.

(** X18.  The code is the clock's nanoseconds within the millisecond: of
    two instants a whole number of milliseconds apart, both from the
    epoch on and within the nanoseconds of an int64, the codes are the
    same. *)
Theorem generateVerificationCode_repeats_every_millisecond
    (now : Time) (milliseconds length : Z) :
  0 <= now -> 0 <= milliseconds ->
  now + milliseconds * 1000000 <= int64_max ->
  MFA.generateVerificationCode (now + milliseconds * 1000000) length
  = MFA.generateVerificationCode now length.
Proof.
  intros Hnow Hms Hmax. unfold MFA.generateVerificationCode, MFA.UnixNano.
  rewrite !wrap_int64_id by (unfold int64_min, int64_max in *; lia).
  f_equal. rewrite !Z.rem_mod_nonneg by lia.
  apply Z.mod_add. lia.
Qed.

(** X18 at work: one millisecond later, and one day later. *)
Lemma generateVerificationCode_repeats_every_millisecond_witness :
  MFA.generateVerificationCode (Samples.t0 + 1 * 1000000) 6
  = MFA.generateVerificationCode Samples.t0 6
  /\ MFA.generateVerificationCode (Samples.t0 + 86400000 * 1000000) 6
     = MFA.generateVerificationCode Samples.t0 6.
Proof.
  assert (H : 0 <= Samples.t0) by (vm_compute; discriminate).
  split.
  - exact (generateVerificationCode_repeats_every_millisecond Samples.t0 1 6
             H ltac:(vm_compute; discriminate)
             ltac:(vm_compute; discriminate)).
  - exact (generateVerificationCode_repeats_every_millisecond Samples.t0
             86400000 6 H ltac:(vm_compute; discriminate)
             ltac:(vm_compute; discriminate)).
Defined.

(** ** SMS and app-link verification *)

(** X19.  No SMS code verifies.  [SendSMS] answers 200 and writes the
    code, with the user id and the phone number, to the log and nowhere
    else; [VerifySMS] then answers 401 "Invalid verification code" for
    every form, the one that carries the code just logged included. *)
Theorem issued_sms_code_is_rejected
    (now : Time) (c c' : MFA.GinContext) :
  let code := MFA.generateVerificationCode now 6 in
  fst (MFA.SendSMS now c)
  = MFA.mkResponse 200 {[ "message" := AString "Verification code sent" ]}
  /\ snd (MFA.SendSMS now c)
     = [MFA.mkLogEntry "SMS verification code"
          [("user_id", ""); ("phone", MFA.PostForm c "phone_number");
           ("code", code)]]
  /\ MFA.VerifySMS c'
     = MFA.mkResponse 401 {[ "error" := AString "Invalid verification code" ]}.
Proof. repeat split. Qed.

(** X20.  No app-link response verifies.  [InitiateAppLink] answers 200
    with the challenge and expires_in 300, also when reading random bytes
    failed, in which case the challenge encodes whatever the buffer held;
    [VerifyAppLink] answers 401 "Invalid app-link verification" for every
    form. *)
Theorem app_link_response_is_rejected
    (base32_EncodeToString : list Z -> string)
    (buffer : list Z) (err : option error) (c c' : MFA.GinContext) :
  MFA.InitiateAppLink base32_EncodeToString (buffer, err) c
  = MFA.mkResponse 200
      {[ "challenge" := AString (base32_EncodeToString buffer);
         "expires_in" := AInt64 300 ]}
  /\ MFA.VerifyAppLink c'
     = MFA.mkResponse 401
         {[ "error" := AString "Invalid app-link verification" ]}.
Proof. split; reflexivity. Qed.

(** ** The RPC handlers as a whole *)

(** X21.  Every handler of the service returns exactly one of a response
    and an error, and the only error there is has the code
    InvalidArgument. *)
Theorem handlers_return_response_or_InvalidArgument
    (now : Time) (call : Auth.rpc) :
  let reply := Auth.handle now call in
  (reply_has_response reply = true /\ Auth.reply_error reply = None)
  \/ (reply_has_response reply = false
      /\ Auth.reply_code reply = Auth.InvalidArgument).
Proof.
  destruct call as [[r|]|[r|]|[r|]|[r|]|[r|]|[r|]|[r|]|[r|]]; simpl;
    try (right; split; reflexivity); try (left; split; reflexivity).
  - unfold Auth.ValidateToken. destruct (String.eqb _ _);
      [right|left]; split; reflexivity.
  - unfold Auth.RegisterPasskey. destruct (String.eqb _ _);
      [right|left]; split; reflexivity.
  - unfold Auth.VerifyPasskey. destruct (String.eqb _ _);
      [right; split; reflexivity|].
    destruct (Auth.Verify_Credential r); [left|right]; split; reflexivity.
  - unfold Auth.AddMFAMethod. destruct (_ || _);
      [right|left]; split; reflexivity.
  - unfold Auth.VerifyMFAMethod. destruct (_ || _ || _);
      [right|left]; split; reflexivity.
  - unfold Auth.RemoveMFAMethod. destruct (_ || _);
      [right|left]; split; reflexivity.
  - unfold Auth.GetMFAMethods. destruct (String.eqb _ _);
      [right|left]; split; reflexivity.
Qed.

(** X22.  The MFA handlers of the service test presence only.
    [AddMFAMethod], [VerifyMFAMethod] and [RemoveMFAMethod] succeed
    exactly when every string of the request is non-empty; [AddMFAMethod]
    hands the method back as the type of the setup data, whatever it
    is. *)
Theorem mfa_rpcs_test_presence_only
    (add : Auth.AddMFAMethodRequest) (verify : Auth.VerifyMFAMethodRequest)
    (remove : Auth.RemoveMFAMethodRequest) :
  (snd (Auth.AddMFAMethod (Some add)) = None
   <-> Auth.Add_UserId add <> "" /\ Auth.Add_Method add <> "")
  /\ (snd (Auth.AddMFAMethod (Some add)) = None ->
      fst (Auth.AddMFAMethod (Some add))
      = Some (Auth.mkAddMFAMethodResponse
                (Some (Auth.mkMFASetupData (Auth.Add_Method add)
                         "dummy-setup-data"))))
  /\ (Auth.VerifyMFAMethod (Some verify)
      = (Some (Auth.mkVerifyMFAMethodResponse true), None)
      <-> Auth.VerifyMFA_UserId verify <> ""
          /\ Auth.VerifyMFA_Method verify <> ""
          /\ Auth.VerifyMFA_Code verify <> "")
  /\ (Auth.RemoveMFAMethod (Some remove)
      = (Some (Auth.mkRemoveMFAMethodResponse true), None)
      <-> Auth.Remove_UserId remove <> "" /\ Auth.Remove_MethodId remove <> "").
Proof.
  unfold Auth.AddMFAMethod, Auth.VerifyMFAMethod, Auth.RemoveMFAMethod.
  split; [|split; [|split]].
  - destruct (String.eqb_spec (Auth.Add_UserId add) "");
      destruct (String.eqb_spec (Auth.Add_Method add) ""); simpl;
      split; try discriminate; intuition congruence.
  - destruct (String.eqb (Auth.Add_UserId add) "");
      destruct (String.eqb (Auth.Add_Method add) ""); simpl;
      try discriminate; reflexivity.
  - destruct (String.eqb_spec (Auth.VerifyMFA_UserId verify) "");
      destruct (String.eqb_spec (Auth.VerifyMFA_Method verify) "");
      destruct (String.eqb_spec (Auth.VerifyMFA_Code verify) ""); simpl;
      split; try discriminate; intuition congruence.
  - destruct (String.eqb_spec (Auth.Remove_UserId remove) "");
      destruct (String.eqb_spec (Auth.Remove_MethodId remove) ""); simpl;
      split; try discriminate; intuition congruence.
Qed.

(** ** From producer to handler *)

(** X23.  An event that is published reaches the handler of its type:
    for an event the JSON codec encodes and decodes back,
    [PublishEvent] sends one message to the given topic, and
    [ConsumeClaim] on that message runs the handler registered for the
    event's type on the event and marks the message when the handler
    returns nil. *)
Theorem published_event_reaches_its_handler
    {W : Type} (json_Marshal : Events.Event -> string * option error)
    (json_Unmarshal : string -> Events.Event * option error)
    (handlers : gmap string (Events.EventHandler W))
    (handler : Events.EventHandler W)
    (topic data : string) (event : Events.Event) (offset : Z) (w w1 : W) :
  json_Marshal event = (data, None) ->
  json_Unmarshal data = (event, None) ->
  handlers !! Events.Event_Type event = Some handler ->
  Events.HandleEvent handler event w = (w1, None) ->
  let msg := Events.mkProducerMessage topic data in
  Events.PublishEvent keep_sent json_Marshal topic event [] = ([msg], None)
  /\ Events.ConsumeClaim json_Unmarshal handlers [delivered_as offset msg]
       w []
     = ((w1, [delivered_as offset msg]), None).
Proof.
  intros HM HU HH HE msg. split.
  - unfold Events.PublishEvent. rewrite HM. reflexivity.
  - simpl. rewrite HU, HH, HE. reflexivity.
Qed.

(** X23 at work: a user.created event on the topic users. *)
Lemma published_event_reaches_its_handler_witness :
  let event := Events.mkEvent "user.created" 0 "{}" in
  let marshal (e : Events.Event) := (Events.Event_Type e, @None error) in
  Events.PublishEvent keep_sent marshal "users" event []
  = ([Events.mkProducerMessage "users" "user.created"], None)
  /\ Events.ConsumeClaim Fixtures.decode_event Fixtures.registry
       [delivered_as 1 (Events.mkProducerMessage "users" "user.created")]
       [] []
     = ((["user.created"],
         [delivered_as 1 (Events.mkProducerMessage "users" "user.created")]),
        None).
Proof.
  intros event marshal.
  exact (published_event_reaches_its_handler marshal Fixtures.decode_event
           Fixtures.registry Fixtures.recorder "users" "user.created" event
           1 [] ["user.created"] eq_refl eq_refl eq_refl eq_refl).
Defined.

(** ** Creating and reading users *)

(** What the reference decoder does where a JSON round trip changes or
    refuses a value: a byte that is no UTF-8 becomes U+FFFD, a time of
    the year 10000 is an error, an absent time is that of year 1. *)
Example decode_User_through_json :
  json_string (String (ascii_of_nat 255) "z")
  = String (ascii_of_nat 239)
      (String (ascii_of_nat 191) (String (ascii_of_nat 189) "z"))
  /\ json_string "a@example.com" = "a@example.com"
  /\ snd (Mem.decode_User
            (Mem.to_item
               (DUser (mkUser "u1" "a@example.com"
                         (253402300800 * Second) 0))))
     = Some "json: cannot unmarshal into Go struct field"
  /\ Mem.decode_User {[ "id" := AString "u1" ]}
     = (mkUser "u1" "" zero_Time zero_Time, None).
Proof. repeat split; reflexivity. Qed.

(** X24.  On a store that reports a missing key as an error, a user
    created under a free id is read back by [GetUser] as it was given
    (same id, email and times), provided that [mapToStruct] decodes the
    item the client hands out for the user back into the user. *)
Theorem created_user_is_read_back
    (mapToStruct_User : item -> User * option error)
    (table : string) (σ : Mem.state) (user : User) :
  σ !! (table, User_ID user) = None ->
  mapToStruct_User (Mem.to_item (DUser user)) = (user, None) ->
  let st := Mem.storage true table in
  let σ1 := fst (CreateUser st user σ) in
  snd (CreateUser st user σ) = None
  /\ GetUser mapToStruct_User st (User_ID user) σ1
     = (σ1, (Some user, None)).
Proof.
  intros Hfree Hdecode st σ1.
  assert (Hrun : CreateUser st user σ
                 = (<[(table, User_ID user) := DUser user]> σ, None)).
  { unfold CreateUser. simpl. rewrite Hfree. reflexivity. }
  subst σ1. rewrite Hrun. cbn [fst snd]. split; [reflexivity|].
  unfold GetUser. simpl. rewrite lookup_insert_eq.
  rewrite Hdecode. reflexivity.
Qed.

(** X24 at work: alice in the empty table, whose id and email are ASCII
    and whose times are the epoch. *)
Lemma created_user_is_read_back_witness :
  (∅ : Mem.state) !! ("users", User_ID Samples.alice) = None
  /\ Mem.decode_User (Mem.to_item (DUser Samples.alice))
     = (Samples.alice, None)
  /\ GetUser Mem.decode_User Samples.strict_users "u1" Samples.after_alice
     = (Samples.after_alice, (Some Samples.alice, None)).
Proof.
  assert (H : (∅ : Mem.state) !! ("users", User_ID Samples.alice) = None)
    by reflexivity.
  assert (Hdecode : Mem.decode_User (Mem.to_item (DUser Samples.alice))
                    = (Samples.alice, None)) by reflexivity.
  split; [exact H|]. split; [exact Hdecode|].
  exact (proj2 (created_user_is_read_back Mem.decode_User "users" ∅
                  Samples.alice H Hdecode)).
Defined.

(** X25.  [CreateUser] and [GetUser] read the answer of the client in
    opposite ways: in a state in which [GetUser] answers NOT_FOUND for an
    id, [CreateUser] of a user with that id answers ALREADY_EXISTS and
    writes nothing; and in a state in which [CreateUser] goes on to write
    the user, [GetUser] of the id answers INTERNAL_ERROR.  This holds for
    every client. *)
Theorem GetUser_NOT_FOUND_is_CreateUser_ALREADY_EXISTS
    {Σ : Type} (s : NoSQLStorage Σ) (dec : item -> User * option error)
    (user : User) (σ : Σ) :
  (Code <$> snd (snd (GetUser dec s (User_ID user) σ)) = Some ErrNotFound ->
   Code <$> snd (CreateUser s user σ) = Some ErrAlreadyExists
   /\ calls_of (CreateUser (traced_storage s) user) σ
      = [CGet (tableName s) (User_ID user)])
  /\ (Code <$> snd (CreateUser s user σ) <> Some ErrAlreadyExists ->
      Code <$> snd (snd (GetUser dec s (User_ID user) σ)) = Some ErrInternal).
Proof.
  rewrite CreateUser_calls.
  unfold GetUser, CreateUser.
  destruct (Get (client s) (tableName s) (User_ID user) σ)
    as [σ1 [result [e|]]]; simpl.
  - split; [discriminate|]. intros _. reflexivity.
  - split; [intros _; split; reflexivity|]. intros H. congruence.
Qed.
